(** * SumoBot controller: a shallow embedding of [src/sumo_bot/SumoBotCode.ino]

    The sketch is a single-threaded control loop over global variables.
    The globals become the record [Robot]; everything the hardware returns
    during one iteration of [loop()] becomes the record [Inputs]; every
    function of the sketch becomes a function on [Robot] that also returns
    the drive events ([analogWrite] on a motor pin, [delay]) it issues, in
    program order.

    Integer types are those of the Arduino Nano (AVR): [unsigned long] is
    32 bits and its subtraction wraps ([ulong]); [int] values (distances,
    speeds) are kept as [Z]: signed overflow is undefined in C++, and the
    stored distances lie in 2..400 or are 999 and the speeds are constants,
    so none occurs.  [Serial] output is diagnostics only and is left out. *)

From Stdlib Require Import ZArith List Bool Lia.
Import ListNotations.
Open Scope Z_scope.

(** ** Configuration (the [#define]s of the sketch) *)

Definition SPEED_MAX : Z := 255.
Definition SPEED_SEARCH : Z := 180.
Definition SPEED_ATTACK : Z := 200.
Definition SPEED_PUSH : Z := 255.
Definition SPEED_ARC_INNER : Z := 153.
Definition SPEED_ARC_OUTER : Z := 230.
Definition SPEED_CLOSE_INNER : Z := 165.
Definition SPEED_CLOSE_OUTER : Z := 204.

Definition OPENING_SPIN_TIME : Z := 500.
Definition OPENING_CHARGE_TIME : Z := 800.
Definition BORDER_REVERSE_TIME : Z := 300.
Definition BORDER_TURN_TIME : Z := 400.
Definition BORDER_REV_SIDE : Z := 200.
Definition BORDER_TURN_SIDE : Z := 300.
Definition BORDER_REV_BACK : Z := 300.
Definition BORDER_TURN_BACK : Z := 300.

Definition ENEMY_CLOSE : Z := 30.
Definition ENEMY_MEDIUM : Z := 80.
Definition ENEMY_FAR : Z := 150.
Definition ENEMY_LOST : Z := 50.
Definition ENEMY_MIN : Z := 10.

Definition IR_THRESHOLD : Z := 512.

Definition ULTRA_INTERVAL : Z := 50.
Definition ULTRA_SIDE_INTERVAL : Z := 200.

Definition DEADLOCK_TIME : Z := 2000.

(** ** Data model *)

Inductive State : Type :=
| STATE_INIT
| STATE_OPENING_MOVE
| STATE_SEARCH
| STATE_ATTACK
| STATE_PUSH
| STATE_BORDER_ESCAPE.

Definition State_eqb (a b : State) : bool :=
  match a, b with
  | STATE_INIT, STATE_INIT
  | STATE_OPENING_MOVE, STATE_OPENING_MOVE
  | STATE_SEARCH, STATE_SEARCH
  | STATE_ATTACK, STATE_ATTACK
  | STATE_PUSH, STATE_PUSH
  | STATE_BORDER_ESCAPE, STATE_BORDER_ESCAPE => true
  | _, _ => false
  end.

(** The four PWM channels of the differential drive. *)
Inductive Pin : Type :=
| MOTOR_LEFT_FWD
| MOTOR_LEFT_BACK
| MOTOR_RIGHT_FWD
| MOTOR_RIGHT_BACK.

(** What the sketch does to the outside world, in program order. *)
Inductive Event : Type :=
| AnalogWrite (pin : Pin) (value : Z)
| Delay (ms : Z).

(** The global variables of the sketch ([previousMillis] is never read or
    written and is left out). *)
Record Robot : Type := mkRobot {
  currentState : State;
  borderFrontRight : bool;
  borderFrontLeft : bool;
  borderRight : bool;
  borderLeft : bool;
  borderBack : bool;
  borderDetected : bool;
  distanceFront : Z;
  distanceLeft : Z;
  distanceRight : Z;
  stateStartTime : Z;
  lastUltraFront : Z;
  lastUltraSide : Z;
  pushStartTime : Z;
  lastEnemyDistance : Z;
  enemyDetected : bool;
  enemyDirection : Z
}.

(** What the hardware returns during one iteration of [loop()].
    [cmFront], [cmLeft], [cmRight] are the value of the local [int distance]
    of [readUltrasonic] (line 287) for that sensor, that is the echo pulse
    already scaled to centimetres; a [pulseIn] time-out returns 0 and so
    gives 0 here.  [analogFR2] and [analogFL2] are the second pair of
    [analogRead]s, made by the tie-break of [executeBorderEscape]. *)
Record Inputs : Type := mkInputs {
  millis : Z;
  analogFR : Z;
  analogFL : Z;
  analogR : Z;
  analogL : Z;
  analogB : Z;
  analogFR2 : Z;
  analogFL2 : Z;
  cmFront : Z;
  cmLeft : Z;
  cmRight : Z
}.

(** [unsigned long] arithmetic: results are reduced modulo 2^32. *)
Definition ulong (z : Z) : Z := z mod 2 ^ 32.

(** Assignments to single globals. *)
Definition set_currentState (s : Robot) (v : State) : Robot :=
  mkRobot v (borderFrontRight s) (borderFrontLeft s) (borderRight s)
    (borderLeft s) (borderBack s) (borderDetected s) (distanceFront s)
    (distanceLeft s) (distanceRight s) (stateStartTime s) (lastUltraFront s)
    (lastUltraSide s) (pushStartTime s) (lastEnemyDistance s)
    (enemyDetected s) (enemyDirection s).

Definition set_distanceFront (s : Robot) (v : Z) : Robot :=
  mkRobot (currentState s) (borderFrontRight s) (borderFrontLeft s)
    (borderRight s) (borderLeft s) (borderBack s) (borderDetected s) v
    (distanceLeft s) (distanceRight s) (stateStartTime s) (lastUltraFront s)
    (lastUltraSide s) (pushStartTime s) (lastEnemyDistance s)
    (enemyDetected s) (enemyDirection s).

Definition set_distanceLeft (s : Robot) (v : Z) : Robot :=
  mkRobot (currentState s) (borderFrontRight s) (borderFrontLeft s)
    (borderRight s) (borderLeft s) (borderBack s) (borderDetected s)
    (distanceFront s) v (distanceRight s) (stateStartTime s)
    (lastUltraFront s) (lastUltraSide s) (pushStartTime s)
    (lastEnemyDistance s) (enemyDetected s) (enemyDirection s).

Definition set_distanceRight (s : Robot) (v : Z) : Robot :=
  mkRobot (currentState s) (borderFrontRight s) (borderFrontLeft s)
    (borderRight s) (borderLeft s) (borderBack s) (borderDetected s)
    (distanceFront s) (distanceLeft s) v (stateStartTime s)
    (lastUltraFront s) (lastUltraSide s) (pushStartTime s)
    (lastEnemyDistance s) (enemyDetected s) (enemyDirection s).

Definition set_stateStartTime (s : Robot) (v : Z) : Robot :=
  mkRobot (currentState s) (borderFrontRight s) (borderFrontLeft s)
    (borderRight s) (borderLeft s) (borderBack s) (borderDetected s)
    (distanceFront s) (distanceLeft s) (distanceRight s) v
    (lastUltraFront s) (lastUltraSide s) (pushStartTime s)
    (lastEnemyDistance s) (enemyDetected s) (enemyDirection s).

Definition set_lastUltraFront (s : Robot) (v : Z) : Robot :=
  mkRobot (currentState s) (borderFrontRight s) (borderFrontLeft s)
    (borderRight s) (borderLeft s) (borderBack s) (borderDetected s)
    (distanceFront s) (distanceLeft s) (distanceRight s) (stateStartTime s)
    v (lastUltraSide s) (pushStartTime s) (lastEnemyDistance s)
    (enemyDetected s) (enemyDirection s).

Definition set_lastUltraSide (s : Robot) (v : Z) : Robot :=
  mkRobot (currentState s) (borderFrontRight s) (borderFrontLeft s)
    (borderRight s) (borderLeft s) (borderBack s) (borderDetected s)
    (distanceFront s) (distanceLeft s) (distanceRight s) (stateStartTime s)
    (lastUltraFront s) v (pushStartTime s) (lastEnemyDistance s)
    (enemyDetected s) (enemyDirection s).

Definition set_pushStartTime (s : Robot) (v : Z) : Robot :=
  mkRobot (currentState s) (borderFrontRight s) (borderFrontLeft s)
    (borderRight s) (borderLeft s) (borderBack s) (borderDetected s)
    (distanceFront s) (distanceLeft s) (distanceRight s) (stateStartTime s)
    (lastUltraFront s) (lastUltraSide s) v (lastEnemyDistance s)
    (enemyDetected s) (enemyDirection s).

Definition set_lastEnemyDistance (s : Robot) (v : Z) : Robot :=
  mkRobot (currentState s) (borderFrontRight s) (borderFrontLeft s)
    (borderRight s) (borderLeft s) (borderBack s) (borderDetected s)
    (distanceFront s) (distanceLeft s) (distanceRight s) (stateStartTime s)
    (lastUltraFront s) (lastUltraSide s) (pushStartTime s) v
    (enemyDetected s) (enemyDirection s).

Definition set_enemyDetected (s : Robot) (v : bool) : Robot :=
  mkRobot (currentState s) (borderFrontRight s) (borderFrontLeft s)
    (borderRight s) (borderLeft s) (borderBack s) (borderDetected s)
    (distanceFront s) (distanceLeft s) (distanceRight s) (stateStartTime s)
    (lastUltraFront s) (lastUltraSide s) (pushStartTime s)
    (lastEnemyDistance s) v (enemyDirection s).

Definition set_enemyDirection (s : Robot) (v : Z) : Robot :=
  mkRobot (currentState s) (borderFrontRight s) (borderFrontLeft s)
    (borderRight s) (borderLeft s) (borderBack s) (borderDetected s)
    (distanceFront s) (distanceLeft s) (distanceRight s) (stateStartTime s)
    (lastUltraFront s) (lastUltraSide s) (pushStartTime s)
    (lastEnemyDistance s) (enemyDetected s) v.

(** A transition: [currentState = v; stateStartTime = currentMillis;]. *)
Definition enter (s : Robot) (v : State) (currentMillis : Z) : Robot :=
  set_stateStartTime (set_currentState s v) currentMillis.

(** ** Sensor acquisition *)

(** [readAllIRSensors()]: five [analogRead]s against one threshold. *)
Definition readAllIRSensors (i : Inputs) (s : Robot) : Robot :=
  let fr := analogFR i >? IR_THRESHOLD in
  let fl := analogFL i >? IR_THRESHOLD in
  let r := analogR i >? IR_THRESHOLD in
  let l := analogL i >? IR_THRESHOLD in
  let b := analogB i >? IR_THRESHOLD in
  mkRobot (currentState s) fr fl r l b (fr || fl || r || l || b)
    (distanceFront s) (distanceLeft s) (distanceRight s) (stateStartTime s)
    (lastUltraFront s) (lastUltraSide s) (pushStartTime s)
    (lastEnemyDistance s) (enemyDetected s) (enemyDirection s).

(** [readUltrasonic(trig, echo)] from its local [distance] on: the
    validation and the value returned (lines 289-294). *)
Definition readUltrasonic (distance : Z) : Z :=
  if (distance <? 2) || (distance >? 400) then 999 else distance.

(** [updateEnemyStatus()]. *)
Definition updateEnemyStatus (s : Robot) : Robot :=
  let frontEnemy :=
    (distanceFront s >=? ENEMY_MIN) && (distanceFront s <=? ENEMY_FAR) in
  let leftEnemy :=
    (distanceLeft s >=? ENEMY_MIN) && (distanceLeft s <=? ENEMY_FAR) in
  let rightEnemy :=
    (distanceRight s >=? ENEMY_MIN) && (distanceRight s <=? ENEMY_FAR) in
  let s1 := set_enemyDetected s (frontEnemy || leftEnemy || rightEnemy) in
  if frontEnemy then set_enemyDirection s1 0
  else if leftEnemy && negb rightEnemy then set_enemyDirection s1 (-1)
  else if rightEnemy && negb leftEnemy then set_enemyDirection s1 1
  else if leftEnemy && rightEnemy then
    set_enemyDirection s1
      (if distanceLeft s <? distanceRight s then -1 else 1)
  else s1.

(** [readUltrasonicSensors(currentMillis)]: staggered polling, then the
    enemy status. *)
Definition readUltrasonicSensors (i : Inputs) (currentMillis : Z) (s : Robot)
  : Robot :=
  let s1 :=
    if ulong (currentMillis - lastUltraFront s) >=? ULTRA_INTERVAL then
      set_lastUltraFront
        (set_distanceFront s (readUltrasonic (cmFront i))) currentMillis
    else s in
  let s2 :=
    if ulong (currentMillis - lastUltraSide s1) >=? ULTRA_SIDE_INTERVAL then
      set_lastUltraSide
        (set_distanceRight
           (set_distanceLeft s1 (readUltrasonic (cmLeft i)))
           (readUltrasonic (cmRight i)))
        currentMillis
    else s1 in
  updateEnemyStatus s2.

(** ** Motion actuation *)

(** [setMotors(leftSpeed, rightSpeed)]: four [analogWrite]s, in the order
    the sketch makes them.  The arguments are 16-bit [int]s; [- leftSpeed]
    here is the negation of the integers, which is the sketch's for speeds
    in -32767..32767 (at -32768 the C++ negation overflows), so what is
    stated for arbitrary speeds carries that range as a hypothesis. *)
Definition setMotors (leftSpeed rightSpeed : Z) : list Event :=
  (if leftSpeed >? 0 then
     [AnalogWrite MOTOR_LEFT_FWD leftSpeed; AnalogWrite MOTOR_LEFT_BACK 0]
   else if leftSpeed <? 0 then
     [AnalogWrite MOTOR_LEFT_FWD 0; AnalogWrite MOTOR_LEFT_BACK (- leftSpeed)]
   else
     [AnalogWrite MOTOR_LEFT_FWD 0; AnalogWrite MOTOR_LEFT_BACK 0])
  ++
  (if rightSpeed >? 0 then
     [AnalogWrite MOTOR_RIGHT_FWD rightSpeed; AnalogWrite MOTOR_RIGHT_BACK 0]
   else if rightSpeed <? 0 then
     [AnalogWrite MOTOR_RIGHT_FWD 0;
      AnalogWrite MOTOR_RIGHT_BACK (- rightSpeed)]
   else
     [AnalogWrite MOTOR_RIGHT_FWD 0; AnalogWrite MOTOR_RIGHT_BACK 0]).

Definition stopMotors : list Event := setMotors 0 0.
Definition moveForward (speed : Z) : list Event := setMotors speed speed.
Definition moveBackward (speed : Z) : list Event :=
  setMotors (- speed) (- speed).
Definition rotateClockwise (speed : Z) : list Event :=
  setMotors speed (- speed).
Definition rotateCounterClockwise (speed : Z) : list Event :=
  setMotors (- speed) speed.

(** The duty last written to each channel; a channel keeps it until the
    next [analogWrite] on its pin. *)
Record Channels : Type := mkChannels {
  leftFwd : Z;
  leftBack : Z;
  rightFwd : Z;
  rightBack : Z
}.

Definition apply_event (c : Channels) (e : Event) : Channels :=
  match e with
  | AnalogWrite MOTOR_LEFT_FWD v =>
      mkChannels v (leftBack c) (rightFwd c) (rightBack c)
  | AnalogWrite MOTOR_LEFT_BACK v =>
      mkChannels (leftFwd c) v (rightFwd c) (rightBack c)
  | AnalogWrite MOTOR_RIGHT_FWD v =>
      mkChannels (leftFwd c) (leftBack c) v (rightBack c)
  | AnalogWrite MOTOR_RIGHT_BACK v =>
      mkChannels (leftFwd c) (leftBack c) (rightFwd c) v
  | Delay _ => c
  end.

Definition drive (evs : list Event) (c : Channels) : Channels :=
  fold_left apply_event evs c.

(** ** State handlers *)

Definition executeOpeningMove (currentMillis : Z) (s : Robot)
  : Robot * list Event :=
  let elapsed := ulong (currentMillis - stateStartTime s) in
  if elapsed <? OPENING_SPIN_TIME then
    (s, rotateClockwise SPEED_MAX)
  else if elapsed <? OPENING_SPIN_TIME + OPENING_CHARGE_TIME then
    (s, moveForward SPEED_MAX)
  else
    (enter s STATE_SEARCH currentMillis, []).

Definition executeSearch (currentMillis : Z) (s : Robot)
  : Robot * list Event :=
  if enemyDetected s then
    if enemyDirection s =? 0 then
      (enter s STATE_ATTACK currentMillis, [])
    else
      (enter s STATE_ATTACK currentMillis,
       (if enemyDirection s =? -1 then rotateCounterClockwise SPEED_SEARCH
        else rotateClockwise SPEED_SEARCH) ++ [Delay 200])
  else
    (s, rotateClockwise SPEED_SEARCH).

Definition executeAttack (currentMillis : Z) (s : Robot)
  : Robot * list Event :=
  let approach :=
    if distanceFront s <=? ENEMY_CLOSE then
      (set_pushStartTime (enter s STATE_PUSH currentMillis) currentMillis, [])
    else if distanceFront s >? ENEMY_MEDIUM then
      (s, setMotors SPEED_ARC_INNER SPEED_ARC_OUTER)
    else
      (s, setMotors SPEED_CLOSE_INNER SPEED_CLOSE_OUTER) in
  if negb (enemyDetected s) || (distanceFront s >? ENEMY_LOST) then
    let lostTime := ulong (currentMillis - stateStartTime s) in
    if lostTime >? 1000 then (enter s STATE_SEARCH currentMillis, [])
    else approach
  else approach.

Definition executePush (currentMillis : Z) (s : Robot)
  : Robot * list Event :=
  let pushDuration := ulong (currentMillis - pushStartTime s) in
  let push :=
    let s1 := set_lastEnemyDistance s (distanceFront s) in
    if negb (enemyDetected s1) || (distanceFront s1 >? ENEMY_LOST) then
      (enter s1 STATE_SEARCH currentMillis, [])
    else
      (s1, moveForward SPEED_PUSH) in
  if pushDuration >? DEADLOCK_TIME then
    if Z.abs (distanceFront s - lastEnemyDistance s) <? 5 then
      (enter s STATE_ATTACK currentMillis,
       moveBackward SPEED_MAX ++ [Delay 300]
         ++ rotateClockwise SPEED_MAX ++ [Delay 300])
    else push
  else push.

Definition executeBorderEscape (i : Inputs) (currentMillis : Z) (s : Robot)
  : Robot * list Event :=
  let elapsed := ulong (currentMillis - stateStartTime s) in
  let frontBorder := borderFrontRight s || borderFrontLeft s in
  let sideBorder := borderRight s || borderLeft s in
  let backBorder := borderBack s in
  if frontBorder then
    if elapsed <? BORDER_REVERSE_TIME then
      (s, moveBackward SPEED_MAX)
    else if elapsed <? BORDER_REVERSE_TIME + BORDER_TURN_TIME then
      if borderFrontRight s && negb (borderFrontLeft s) then
        (s, rotateCounterClockwise SPEED_MAX)
      else if borderFrontLeft s && negb (borderFrontRight s) then
        (s, rotateClockwise SPEED_MAX)
      else if analogFR2 i >? analogFL2 i then
        (s, rotateCounterClockwise SPEED_MAX)
      else
        (s, rotateClockwise SPEED_MAX)
    else if negb (borderDetected s) then
      (enter s STATE_SEARCH currentMillis, [])
    else
      (set_stateStartTime s (ulong (currentMillis - BORDER_REVERSE_TIME)), [])
  else if sideBorder then
    if elapsed <? BORDER_REV_SIDE then
      (s, moveBackward SPEED_MAX)
    else if elapsed <? BORDER_REV_SIDE + BORDER_TURN_SIDE then
      if borderLeft s then (s, rotateClockwise SPEED_MAX)
      else (s, rotateCounterClockwise SPEED_MAX)
    else if negb (borderDetected s) then
      (enter s STATE_SEARCH currentMillis, [])
    else
      (set_stateStartTime s (ulong (currentMillis - BORDER_REV_SIDE)), [])
  else if backBorder then
    if elapsed <? BORDER_REV_BACK then
      (s, moveForward SPEED_MAX)
    else if elapsed <? BORDER_REV_BACK + BORDER_TURN_BACK then
      (s, rotateClockwise SPEED_MAX)
    else if negb (borderDetected s) then
      (enter s STATE_SEARCH currentMillis, [])
    else
      (set_stateStartTime s (ulong (currentMillis - BORDER_REV_BACK)), [])
  else
    (s, []).

(** ** The control loop *)

(** Lines 193-198: border detection overrides everything except
    [STATE_BORDER_ESCAPE]. *)
Definition borderPriority (currentMillis : Z) (s : Robot) : Robot :=
  if borderDetected s
     && negb (State_eqb (currentState s) STATE_BORDER_ESCAPE)
  then enter s STATE_BORDER_ESCAPE currentMillis
  else s.

(** The [switch] of [loop()]. *)
Definition dispatch (i : Inputs) (currentMillis : Z) (s : Robot)
  : Robot * list Event :=
  match currentState s with
  | STATE_INIT => (s, [])
  | STATE_OPENING_MOVE => executeOpeningMove currentMillis s
  | STATE_SEARCH => executeSearch currentMillis s
  | STATE_ATTACK => executeAttack currentMillis s
  | STATE_PUSH => executePush currentMillis s
  | STATE_BORDER_ESCAPE => executeBorderEscape i currentMillis s
  end.

(** The globals as the [switch] of this iteration finds them. *)
Definition sense (i : Inputs) (s : Robot) : Robot :=
  let currentMillis := ulong (millis i) in
  readUltrasonicSensors i currentMillis
    (borderPriority currentMillis (readAllIRSensors i s)).

(** One iteration of [loop()]. *)
Definition loop (i : Inputs) (s : Robot) : Robot * list Event :=
  dispatch i (ulong (millis i)) (sense i s).

Definition tick (s : Robot) (i : Inputs) : Robot := fst (loop i s).

(** The globals after a sequence of iterations. *)
Definition run (ticks : list Inputs) (s : Robot) : Robot :=
  fold_left tick ticks s.

(** Time since [t0] as the sketch measures it on iteration [i]. *)
Definition elapsedSince (t0 : Z) (i : Inputs) : Z :=
  ulong (ulong (millis i) - t0).

(** No border sensor above the threshold on this iteration. *)
Definition noBorder (i : Inputs) : bool :=
  negb ((analogFR i >? IR_THRESHOLD) || (analogFL i >? IR_THRESHOLD)
        || (analogR i >? IR_THRESHOLD) || (analogL i >? IR_THRESHOLD)
        || (analogB i >? IR_THRESHOLD)).

(** The condition of line 441 (and of line 496): the target counts as lost. *)
Definition targetLost (s : Robot) : bool :=
  negb (enemyDetected s) || (distanceFront s >? ENEMY_LOST).

(** The globals after each iteration of a sequence, oldest first. *)
Fixpoint history (ticks : list Inputs) (s : Robot) : list Robot :=
  match ticks with
  | [] => []
  | i :: rest => tick s i :: history rest (tick s i)
  end.

(** The state and the drive events of each iteration of a sequence. *)
Fixpoint trace (ticks : list Inputs) (s : Robot)
  : list (State * list Event) :=
  match ticks with
  | [] => []
  | i :: rest =>
      (currentState (tick s i), snd (loop i s)) :: trace rest (tick s i)
  end.

(** Every duty written lies in the PWM range 0..SPEED_MAX. *)
Definition pwm_ok (e : Event) : Prop :=
  match e with
  | AnalogWrite _ v => 0 <= v <= SPEED_MAX
  | Delay _ => True
  end.

(** The fixed recovery sequence of the deadlock branch of [executePush]. *)
Definition recovery : list Event :=
  moveBackward SPEED_MAX ++ [Delay 300]
    ++ rotateClockwise SPEED_MAX ++ [Delay 300].

(** A stored distance that counts as a target (lines 299-301). *)
Definition inBand (d : Z) : bool := (d >=? ENEMY_MIN) && (d <=? ENEMY_FAR).

(** The robot pushes since [T] with the front distance [d] stored. *)
Definition pushing (T d : Z) (s : Robot) : Prop :=
  currentState s = STATE_PUSH /\ pushStartTime s = T /\ distanceFront s = d.

(** An iteration with no border flag on which the front sensor, if it is
    polled, measures [d]. *)
Definition holds (d : Z) (i : Inputs) : Prop :=
  noBorder i = true /\ cmFront i = d.

(** ** Definitions used to state further properties *)

(** The transitions one iteration of [loop()] can make. *)
Definition successors (a : State) : list State :=
  match a with
  | STATE_INIT => [STATE_INIT; STATE_BORDER_ESCAPE]
  | STATE_OPENING_MOVE =>
      [STATE_OPENING_MOVE; STATE_SEARCH; STATE_BORDER_ESCAPE]
  | STATE_SEARCH => [STATE_SEARCH; STATE_ATTACK; STATE_BORDER_ESCAPE]
  | STATE_ATTACK =>
      [STATE_ATTACK; STATE_SEARCH; STATE_PUSH; STATE_BORDER_ESCAPE]
  | STATE_PUSH =>
      [STATE_PUSH; STATE_ATTACK; STATE_SEARCH; STATE_BORDER_ESCAPE]
  | STATE_BORDER_ESCAPE => [STATE_BORDER_ESCAPE]
  end.

Definition all_states : list State :=
  [STATE_INIT; STATE_OPENING_MOVE; STATE_SEARCH; STATE_ATTACK; STATE_PUSH;
   STATE_BORDER_ESCAPE].

(** The time, in milliseconds, an event list spends in [delay()]. *)
Definition blocked (evs : list Event) : Z :=
  fold_right (fun e acc => match e with Delay ms => ms + acc | _ => acc end)
    0 evs.

(** A value a distance global can hold: a plausible measurement or the
    invalid-reading mark 999. *)
Definition okDistance (d : Z) : Prop := 2 <= d <= 400 \/ d = 999.

Definition storedOk (s : Robot) : Prop :=
  okDistance (distanceFront s) /\ okDistance (distanceLeft s) /\
  okDistance (distanceRight s) /\ okDistance (lastEnemyDistance s).

(** No wheel has both of its channels driven. *)
Definition exclusive (c : Channels) : Prop :=
  (leftFwd c = 0 \/ leftBack c = 0) /\ (rightFwd c = 0 \/ rightBack c = 0).

(** The globals a later iteration can be affected by: everything but the
    border flags and the enemy estimate, which [loop()] recomputes before
    it uses them. *)
Definition carried (s : Robot)
  : State * (Z * Z * Z) * (Z * Z * Z * Z) * Z :=
  (currentState s,
   (distanceFront s, distanceLeft s, distanceRight s),
   (stateStartTime s, lastUltraFront s, lastUltraSide s, pushStartTime s),
   lastEnemyDistance s).

(** ** Concrete robots and inputs used by the examples *)

(** The globals as the sketch initialises them. *)
Definition power_on : Robot :=
  mkRobot STATE_INIT false false false false false false
    999 999 999 0 0 0 0 999 false 0.

(** An iteration at time [t] with every border sensor dark and the three
    range sensors returning [f], [l], [r] centimetres. *)
Definition calm (t f l r : Z) : Inputs :=
  mkInputs t 0 0 0 0 0 0 0 f l r.

(** An iteration at time [t] with the five border sensors reading
    [fr fl r l b] and no echo on any range sensor. *)
Definition edge (t fr fl r l b : Z) : Inputs :=
  mkInputs t fr fl r l b fr fl 0 0 0.

(** The clock does not run backwards and has not wrapped: the iterations
    of [ticks] come at times from [t0] on, in order, below 2^32. *)
Fixpoint ascending (t0 : Z) (ticks : list Inputs) : Prop :=
  match ticks with
  | [] => True
  | i :: rest => t0 <= millis i < 2 ^ 32 /\ ascending (millis i) rest
  end.

(** The front-left or the front-right border sensor is above the
    threshold on this iteration. *)
Definition frontLine (i : Inputs) : bool :=
  (analogFR i >? IR_THRESHOLD) || (analogFL i >? IR_THRESHOLD).

(** The globals after the polls of [readUltrasonicSensors], before the
    enemy status is updated, written field by field. *)
Definition polled (i : Inputs) (currentMillis : Z) (s : Robot) : Robot :=
  let front :=
    ulong (currentMillis - lastUltraFront s) >=? ULTRA_INTERVAL in
  let side :=
    ulong (currentMillis - lastUltraSide s) >=? ULTRA_SIDE_INTERVAL in
  mkRobot (currentState s) (borderFrontRight s) (borderFrontLeft s)
    (borderRight s) (borderLeft s) (borderBack s) (borderDetected s)
    (if front then readUltrasonic (cmFront i) else distanceFront s)
    (if side then readUltrasonic (cmLeft i) else distanceLeft s)
    (if side then readUltrasonic (cmRight i) else distanceRight s)
    (stateStartTime s)
    (if front then currentMillis else lastUltraFront s)
    (if side then currentMillis else lastUltraSide s)
    (pushStartTime s) (lastEnemyDistance s)
    (enemyDetected s) (enemyDirection s).

(** [setup()]: the motors are stopped, the border sensors are read once,
    the countdown waits five times one second, and the opening move is
    entered.  [i] carries the five [analogRead]s of [readAllIRSensors] and
    the value [millis()] returns at the end. *)
Definition setup (i : Inputs) : Robot * list Event :=
  (enter (readAllIRSensors i power_on) STATE_OPENING_MOVE (ulong (millis i)),
   stopMotors
     ++ [Delay 1000; Delay 1000; Delay 1000; Delay 1000; Delay 1000]).

(** Robots and inputs that realise every edge of the graph. *)
Definition edge_samples : list (Robot * Inputs) :=
  [(power_on, calm 0 0 0 0);
   (power_on, edge 0 800 0 0 0 0);
   (enter power_on STATE_OPENING_MOVE 0, calm 100 0 0 0);
   (enter power_on STATE_OPENING_MOVE 0, calm 2000 0 0 0);
   (enter power_on STATE_OPENING_MOVE 0, edge 100 0 800 0 0 0);
   (enter power_on STATE_SEARCH 0, calm 100 0 0 0);
   (enter power_on STATE_SEARCH 0, calm 100 40 0 0);
   (enter power_on STATE_SEARCH 0, edge 100 0 0 800 0 0);
   (enter power_on STATE_ATTACK 0, calm 100 45 0 0);
   (enter power_on STATE_ATTACK 0, calm 2000 0 0 0);
   (enter power_on STATE_ATTACK 0, calm 100 25 0 0);
   (enter power_on STATE_ATTACK 0, edge 100 0 0 0 800 0);
   (enter power_on STATE_PUSH 0, calm 100 20 0 0);
   (set_lastEnemyDistance (enter power_on STATE_PUSH 0) 20,
    calm 3000 20 0 0);
   (enter power_on STATE_PUSH 0, calm 100 0 0 0);
   (enter power_on STATE_PUSH 0, edge 100 0 0 0 0 800);
   (enter power_on STATE_BORDER_ESCAPE 0, calm 100 0 0 0)].

(** * Properties *)

(** ** Frame facts about sensor acquisition *)

Ltac split_ifs :=
  repeat match goal with
         | |- context [if ?b then _ else _] => destruct b eqn:?
         end.

Lemma updateEnemyStatus_frame (s : Robot) :
  let u := updateEnemyStatus s in
  currentState u = currentState s /\
  stateStartTime u = stateStartTime s /\
  pushStartTime u = pushStartTime s /\
  lastEnemyDistance u = lastEnemyDistance s /\
  distanceFront u = distanceFront s /\
  distanceLeft u = distanceLeft s /\
  distanceRight u = distanceRight s /\
  borderFrontRight u = borderFrontRight s /\
  borderFrontLeft u = borderFrontLeft s /\
  borderRight u = borderRight s /\
  borderLeft u = borderLeft s /\
  borderBack u = borderBack s /\
  borderDetected u = borderDetected s.
Proof.
  unfold updateEnemyStatus; cbv zeta; split_ifs; cbn; repeat split.
Qed.

Lemma readUltrasonicSensors_frame (i : Inputs) (cm : Z) (s : Robot) :
  let u := readUltrasonicSensors i cm s in
  currentState u = currentState s /\
  stateStartTime u = stateStartTime s /\
  pushStartTime u = pushStartTime s /\
  lastEnemyDistance u = lastEnemyDistance s /\
  borderFrontRight u = borderFrontRight s /\
  borderFrontLeft u = borderFrontLeft s /\
  borderRight u = borderRight s /\
  borderLeft u = borderLeft s /\
  borderBack u = borderBack s /\
  borderDetected u = borderDetected s.
Proof.
  unfold readUltrasonicSensors; cbv zeta.
  match goal with
  | |- context [updateEnemyStatus ?x] =>
      pose proof (updateEnemyStatus_frame x) as F; cbv zeta in F
  end.
  destruct F as (-> & -> & -> & -> & _ & _ & _ & -> & -> & -> & -> & -> & ->).
  split_ifs; cbn; repeat split.
Qed.

Lemma ulong_diag (t : Z) : ulong (t - t) = 0.
Proof. unfold ulong; now rewrite Z.sub_diag. Qed.

Lemma readAllIRSensors_noBorder (i : Inputs) (s : Robot) :
  borderDetected (readAllIRSensors i s) = negb (noBorder i).
Proof. unfold noBorder; cbn; now rewrite negb_involutive. Qed.

(** What [sense] leaves of the control context, and the border flags it
    hands to the state handler. *)
Lemma sense_frame (i : Inputs) (s : Robot) :
  let p := borderPriority (ulong (millis i)) (readAllIRSensors i s) in
  let v := sense i s in
  currentState v = currentState p /\
  stateStartTime v = stateStartTime p /\
  pushStartTime v = pushStartTime s /\
  lastEnemyDistance v = lastEnemyDistance s /\
  borderFrontRight v = (analogFR i >? IR_THRESHOLD) /\
  borderFrontLeft v = (analogFL i >? IR_THRESHOLD) /\
  borderRight v = (analogR i >? IR_THRESHOLD) /\
  borderLeft v = (analogL i >? IR_THRESHOLD) /\
  borderBack v = (analogB i >? IR_THRESHOLD) /\
  borderDetected v = negb (noBorder i).
Proof.
  cbv zeta; unfold sense.
  match goal with
  | |- context [readUltrasonicSensors ?a ?b ?c] =>
      pose proof (readUltrasonicSensors_frame a b c) as F; cbv zeta in F
  end.
  destruct F as (-> & -> & -> & -> & -> & -> & -> & -> & -> & ->).
  unfold borderPriority, noBorder.
  split_ifs; cbn; rewrite ?negb_involutive; repeat split.
Qed.

Lemma sense_noBorder (i : Inputs) (s : Robot) :
  noBorder i = true ->
  let v := sense i s in
  currentState v = currentState s /\
  stateStartTime v = stateStartTime s /\
  borderFrontRight v = false /\ borderFrontLeft v = false /\
  borderRight v = false /\ borderLeft v = false /\ borderBack v = false /\
  borderDetected v = false.
Proof.
  intros H; cbv zeta.
  destruct (sense_frame i s) as (-> & -> & _ & _ & -> & -> & -> & -> & -> & ->).
  unfold borderPriority.
  rewrite readAllIRSensors_noBorder, H; cbn.
  unfold noBorder in H; apply negb_true_iff in H.
  repeat (apply orb_false_iff in H; destruct H as [H ?]).
  repeat split; assumption.
Qed.

(** During the first phase of a maneuver the escape handler only drives. *)
Lemma escape_first_phase (i : Inputs) (cm : Z) (v : Robot) :
  stateStartTime v = cm ->
  borderFrontRight v || borderFrontLeft v || borderRight v
    || borderLeft v || borderBack v = true ->
  fst (executeBorderEscape i cm v) = v.
Proof.
  intros Ht Hb; unfold executeBorderEscape; cbv zeta.
  rewrite Ht, ulong_diag.
  destruct (borderFrontRight v), (borderFrontLeft v), (borderRight v),
    (borderLeft v), (borderBack v); try discriminate Hb; reflexivity.
Qed.

(** ** C1: border safety has priority *)

(** C1. On every iteration of the loop, if one of the five border flags is
    set once the border sensors have been read and the state is not
    [STATE_BORDER_ESCAPE], then the priority check leaves the state
    [STATE_BORDER_ESCAPE] with [stateStartTime] equal to the time of this
    iteration, and that is still so when the iteration ends: neither the
    range readings of this iteration nor the handler that runs changes it.
    The robot and the inputs (the range readings among them) are
    arbitrary. *)
Theorem border_priority_preempts (i : Inputs) (s : Robot) :
  let r := readAllIRSensors i s in
  let cm := ulong (millis i) in
  borderFrontRight r || borderFrontLeft r || borderRight r
    || borderLeft r || borderBack r = true ->
  currentState s <> STATE_BORDER_ESCAPE ->
  (currentState (borderPriority cm r) = STATE_BORDER_ESCAPE /\
   stateStartTime (borderPriority cm r) = cm) /\
  (currentState (tick s i) = STATE_BORDER_ESCAPE /\
   stateStartTime (tick s i) = cm).
Proof.
  cbv zeta; intros Hb Hs.
  assert (P : currentState
                (borderPriority (ulong (millis i)) (readAllIRSensors i s))
              = STATE_BORDER_ESCAPE /\
              stateStartTime
                (borderPriority (ulong (millis i)) (readAllIRSensors i s))
              = ulong (millis i)).
  { unfold borderPriority.
    replace (borderDetected (readAllIRSensors i s)) with true
      by (symmetry; exact Hb).
    cbn; destruct (currentState s); cbn; now split. }
  split; [exact P|].
  destruct (sense_frame i s) as (Hc & Ht & _ & _ & Hfr & Hfl & Hr & Hl & Hbk & _).
  destruct P as [Pc Pt]; rewrite Pc in Hc; rewrite Pt in Ht.
  unfold tick, loop, dispatch; rewrite Hc.
  rewrite escape_first_phase; [now split | exact Ht |].
  rewrite Hfr, Hfl, Hr, Hl, Hbk; exact Hb.
Qed.

(** The priority rule fires while the robot charges a target 20 cm ahead
    and the front-right sensor sees the line. *)
Lemma border_priority_preempts_witness :
  (currentState
     (borderPriority 5000
        (readAllIRSensors (mkInputs 5000 800 0 0 0 0 800 0 20 0 0)
           (set_currentState power_on STATE_PUSH))) = STATE_BORDER_ESCAPE /\
   stateStartTime
     (borderPriority 5000
        (readAllIRSensors (mkInputs 5000 800 0 0 0 0 800 0 20 0 0)
           (set_currentState power_on STATE_PUSH))) = 5000) /\
  (currentState
     (tick (set_currentState power_on STATE_PUSH)
        (mkInputs 5000 800 0 0 0 0 800 0 20 0 0)) = STATE_BORDER_ESCAPE /\
   stateStartTime
     (tick (set_currentState power_on STATE_PUSH)
        (mkInputs 5000 800 0 0 0 0 800 0 20 0 0)) = 5000).
Proof.
  apply (border_priority_preempts
           (mkInputs 5000 800 0 0 0 0 800 0 20 0 0)
           (set_currentState power_on STATE_PUSH)).
  - reflexivity.
  - discriminate.
Defined.

(** ** C10 and C2: the escape handler and the border flags *)

(** C10. On an iteration in [STATE_BORDER_ESCAPE] on which all five border
    sensors read clear, no zone is selected: the escape handler returns
    the globals as it found them and issues no drive event.  The state is
    still [STATE_BORDER_ESCAPE] when the iteration ends, [stateStartTime] is
    the one the iteration started with, and every channel keeps the duty it
    had.  Nothing is assumed about the time of the iteration. *)
Theorem escape_idle_when_clear (i : Inputs) (s : Robot) :
  let r := readAllIRSensors i s in
  currentState s = STATE_BORDER_ESCAPE ->
  borderFrontRight r || borderFrontLeft r || borderRight r
    || borderLeft r || borderBack r = false ->
  executeBorderEscape i (ulong (millis i)) (sense i s) = (sense i s, []) /\
  currentState (tick s i) = STATE_BORDER_ESCAPE /\
  stateStartTime (tick s i) = stateStartTime s /\
  snd (loop i s) = [] /\
  (forall c : Channels, drive (snd (loop i s)) c = c).
Proof.
  intros r Hs Hclear; subst r.
  assert (Hn : noBorder i = true)
    by (unfold noBorder; cbn in Hclear; now rewrite Hclear).
  destruct (sense_noBorder i s Hn) as (Hc & Ht & Hfr & Hfl & Hr & Hl & Hb & _).
  assert (E : executeBorderEscape i (ulong (millis i)) (sense i s)
              = (sense i s, [])).
  { unfold executeBorderEscape; cbv zeta.
    now rewrite Hfr, Hfl, Hr, Hl, Hb. }
  split; [exact E|].
  unfold tick, loop, dispatch; rewrite Hc, Hs, E; cbn.
  rewrite Hc, Ht; repeat split; assumption.
Qed.

(** An escape begun at 1000 ms, looked at a full minute later with every
    border sensor dark. *)
Lemma escape_idle_when_clear_witness :
  executeBorderEscape (edge 61000 0 0 0 0 0) (ulong 61000)
    (sense (edge 61000 0 0 0 0 0)
       (enter power_on STATE_BORDER_ESCAPE 1000))
  = (sense (edge 61000 0 0 0 0 0)
       (enter power_on STATE_BORDER_ESCAPE 1000), []) /\
  currentState
    (tick (enter power_on STATE_BORDER_ESCAPE 1000)
       (edge 61000 0 0 0 0 0)) = STATE_BORDER_ESCAPE /\
  stateStartTime
    (tick (enter power_on STATE_BORDER_ESCAPE 1000)
       (edge 61000 0 0 0 0 0)) = 1000 /\
  snd (loop (edge 61000 0 0 0 0 0)
         (enter power_on STATE_BORDER_ESCAPE 1000)) = [] /\
  (forall c : Channels,
      drive (snd (loop (edge 61000 0 0 0 0 0)
                    (enter power_on STATE_BORDER_ESCAPE 1000))) c = c).
Proof.
  apply (escape_idle_when_clear (edge 61000 0 0 0 0 0)
           (enter power_on STATE_BORDER_ESCAPE 1000)); reflexivity.
Defined.

(** Inside a zone [borderDetected] is set, so the clearance check of the
    escape handler never takes its [STATE_SEARCH] branch. *)
Lemma escape_keeps_state (i : Inputs) (cm : Z) (v : Robot) :
  currentState v = STATE_BORDER_ESCAPE ->
  borderDetected v
  = borderFrontRight v || borderFrontLeft v || borderRight v
      || borderLeft v || borderBack v ->
  currentState (fst (executeBorderEscape i cm v)) = STATE_BORDER_ESCAPE.
Proof.
  intros Hs Hd; unfold executeBorderEscape; cbv zeta; rewrite Hd.
  destruct (borderFrontRight v), (borderFrontLeft v), (borderRight v),
    (borderLeft v), (borderBack v); cbn; split_ifs; cbn; exact Hs.
Qed.

(** No iteration of the loop leaves [STATE_BORDER_ESCAPE]. *)
Lemma border_escape_absorbing (i : Inputs) (s : Robot) :
  currentState s = STATE_BORDER_ESCAPE ->
  currentState (tick s i) = STATE_BORDER_ESCAPE.
Proof.
  intros Hs.
  destruct (sense_frame i s)
    as (Hc & _ & _ & _ & Hfr & Hfl & Hr & Hl & Hb & Hd).
  assert (Hv : currentState (sense i s) = STATE_BORDER_ESCAPE).
  { rewrite Hc; unfold borderPriority; split_ifs; cbn; [reflexivity|exact Hs]. }
  unfold tick, loop, dispatch; rewrite Hv.
  apply escape_keeps_state; [exact Hv|].
  rewrite Hd, Hfr, Hfl, Hr, Hl, Hb; unfold noBorder.
  now rewrite negb_involutive.
Qed.

Lemma border_escape_forever (ticks : list Inputs) (s : Robot) :
  currentState s = STATE_BORDER_ESCAPE ->
  currentState (run ticks s) = STATE_BORDER_ESCAPE.
Proof.
  revert s; induction ticks as [|i rest IH]; intros s Hs; cbn.
  - exact Hs.
  - apply IH, border_escape_absorbing, Hs.
Qed.

(** With a flag still set once both phases have run, the front zone restarts
    its timer at the start of the turn phase; the durations are those of
    the first attempt. *)
Lemma escape_extends_maneuver (i : Inputs) (cm : Z) (v : Robot) :
  borderFrontRight v || borderFrontLeft v = true ->
  borderDetected v = true ->
  BORDER_REVERSE_TIME + BORDER_TURN_TIME <= ulong (cm - stateStartTime v) ->
  executeBorderEscape i cm v
  = (set_stateStartTime v (ulong (cm - BORDER_REVERSE_TIME)), []).
Proof.
  intros Hz Hd He; unfold executeBorderEscape; cbv zeta; rewrite Hz, Hd.
  unfold BORDER_REVERSE_TIME, BORDER_TURN_TIME in *.
  destruct (ulong (cm - stateStartTime v) <? 300) eqn:E1; [lia|].
  destruct (ulong (cm - stateStartTime v) <? 300 + 400) eqn:E2; [lia|].
  reflexivity.
Qed.

(** C2 (the escape never completes). The robot searches; at 1000 ms the
    front-right sensor sees the line and stays on it until past 1400 ms, so
    the front-zone maneuver runs (reverse, then turn left); from 1800 ms
    on, 800 ms after the escape began and past both phases, every border
    sensor reads clear.  The state is [STATE_BORDER_ESCAPE] after every
    iteration, up to a minute later, and the iterations with clear sensors
    drive nothing: [STATE_SEARCH] is not reached. *)
Theorem escape_completion_fails :
  trace [edge 1000 800 0 0 0 0; edge 1200 800 0 0 0 0;
         edge 1400 800 0 0 0 0; edge 1800 0 0 0 0 0;
         edge 2500 0 0 0 0 0; edge 61000 0 0 0 0 0]
    (enter power_on STATE_SEARCH 0)
  = [(STATE_BORDER_ESCAPE, moveBackward SPEED_MAX);
     (STATE_BORDER_ESCAPE, moveBackward SPEED_MAX);
     (STATE_BORDER_ESCAPE, rotateCounterClockwise SPEED_MAX);
     (STATE_BORDER_ESCAPE, []);
     (STATE_BORDER_ESCAPE, []);
     (STATE_BORDER_ESCAPE, [])].
Proof. vm_compute; reflexivity. Qed.

(** ** C3: invalid range readings *)

Lemma readUltrasonic_invalid (distance : Z) :
  distance < 2 \/ 400 < distance -> readUltrasonic distance = 999.
Proof.
  intros H; unfold readUltrasonic.
  destruct (distance <? 2) eqn:E1; destruct (distance >? 400) eqn:E2;
    cbn; try reflexivity; lia.
Qed.

Lemma readUltrasonic_valid (distance : Z) :
  2 <= distance <= 400 -> readUltrasonic distance = distance.
Proof.
  intros H; unfold readUltrasonic.
  destruct (distance <? 2) eqn:E1; destruct (distance >? 400) eqn:E2;
    cbn; try reflexivity; lia.
Qed.

(** Whenever the front sensor is polled, what it stores is the value
    [readUltrasonic] returns: 999 for an invalid measurement, whatever was
    stored before. *)
Lemma invalid_front_reading_stored (i : Inputs) (cm : Z) (s : Robot) :
  ULTRA_INTERVAL <= ulong (cm - lastUltraFront s) ->
  cmFront i < 2 \/ 400 < cmFront i ->
  distanceFront (readUltrasonicSensors i cm s) = 999.
Proof.
  intros Hdue Hbad; unfold readUltrasonicSensors; cbv zeta.
  match goal with
  | |- context [updateEnemyStatus ?x] =>
      destruct (updateEnemyStatus_frame x) as (_ & _ & _ & _ & -> & _)
  end.
  destruct (ulong (cm - lastUltraFront s) >=? ULTRA_INTERVAL) eqn:E; [|lia].
  rewrite (readUltrasonic_invalid _ Hbad).
  split_ifs; reflexivity.
Qed.

(** C3 (invalid readings are stored as 999). The robot searches with the
    valid readings 40, 120 and 35 cm stored for front, left and right.  On
    the iteration at 1000 ms all three sensors are polled: the front echo
    times out (0), the left measurement is 450 cm, beyond the plausible
    range, the right one is 1 cm, below it.  After the iteration each
    stored distance is 999 and none is the earlier valid reading. *)
Theorem invalid_reading_replaces_stored :
  let s :=
    set_distanceRight
      (set_distanceLeft
         (set_distanceFront (enter power_on STATE_SEARCH 0) 40) 120) 35 in
  let i := calm 1000 0 450 1 in
  (distanceFront s = 40 /\ distanceLeft s = 120 /\ distanceRight s = 35) /\
  (distanceFront (tick s i) = 999 /\ distanceLeft (tick s i) = 999 /\
   distanceRight (tick s i) = 999).
Proof. vm_compute; repeat split. Qed.

(** ** C8 and C9: the enemy estimate *)

Lemma inBand_iff (d : Z) : inBand d = true <-> ENEMY_MIN <= d <= ENEMY_FAR.
Proof. unfold inBand; rewrite andb_true_iff; lia. Qed.

(** [updateEnemyStatus] in closed form. *)
Lemma updateEnemyStatus_spec (s : Robot) :
  let f := inBand (distanceFront s) in
  let l := inBand (distanceLeft s) in
  let r := inBand (distanceRight s) in
  enemyDetected (updateEnemyStatus s) = f || l || r /\
  enemyDirection (updateEnemyStatus s)
  = if f then 0
    else if l && r then (if distanceLeft s <? distanceRight s then -1 else 1)
    else if l then -1
    else if r then 1
    else enemyDirection s.
Proof.
  cbv zeta; unfold updateEnemyStatus, inBand; cbv zeta.
  destruct ((distanceFront s >=? ENEMY_MIN) && (distanceFront s <=? ENEMY_FAR)),
    ((distanceLeft s >=? ENEMY_MIN) && (distanceLeft s <=? ENEMY_FAR)),
    ((distanceRight s >=? ENEMY_MIN) && (distanceRight s <=? ENEMY_FAR));
    cbn; split; reflexivity.
Qed.

(** The estimate handed to the state handler is the one [updateEnemyStatus]
    computes from the distances stored at that point; the direction it
    starts from is the one the previous iteration left. *)
Lemma sense_estimate (i : Inputs) (s : Robot) :
  exists x : Robot,
    sense i s = updateEnemyStatus x /\
    distanceFront x = distanceFront (sense i s) /\
    distanceLeft x = distanceLeft (sense i s) /\
    distanceRight x = distanceRight (sense i s) /\
    enemyDirection x = enemyDirection s.
Proof.
  unfold sense, readUltrasonicSensors; cbv zeta.
  match goal with
  | |- context [updateEnemyStatus ?x] =>
      exists x;
      destruct (updateEnemyStatus_frame x)
        as (_ & _ & _ & _ & -> & -> & -> & _)
  end.
  repeat split.
  unfold borderPriority; split_ifs; reflexivity.
Qed.

(** No state handler writes the stored distances or the enemy estimate. *)
Lemma dispatch_frame (i : Inputs) (cm : Z) (v : Robot) :
  let u := fst (dispatch i cm v) in
  distanceFront u = distanceFront v /\
  distanceLeft u = distanceLeft v /\
  distanceRight u = distanceRight v /\
  enemyDetected u = enemyDetected v /\
  enemyDirection u = enemyDirection v.
Proof.
  cbv zeta.
  unfold dispatch, executeOpeningMove, executeSearch, executeAttack,
    executePush, executeBorderEscape; cbv zeta.
  destruct (currentState v); split_ifs; cbn; repeat split; assumption.
Qed.

Lemma tie_break_update (s : Robot) :
  ENEMY_MIN <= distanceLeft s <= ENEMY_FAR ->
  ENEMY_MIN <= distanceRight s <= ENEMY_FAR ->
  ~ ENEMY_MIN <= distanceFront s <= ENEMY_FAR ->
  enemyDetected (updateEnemyStatus s) = true /\
  enemyDirection (updateEnemyStatus s)
  = if distanceLeft s <? distanceRight s then -1 else 1.
Proof.
  intros Hl Hr Hf.
  destruct (updateEnemyStatus_spec s) as [-> ->].
  apply inBand_iff in Hl, Hr; rewrite Hl, Hr.
  destruct (inBand (distanceFront s)) eqn:E.
  - apply inBand_iff in E; contradiction.
  - split; reflexivity.
Qed.

(** C9. On every iteration of the loop on which the stored left and right
    distances both lie in the target band 10..150 cm and the stored front
    distance does not, the estimate handed to the state handler is: enemy
    present, direction left (-1) if [distanceLeft] is smaller than
    [distanceRight], right (1) otherwise; and that is the direction still
    stored when the iteration ends. *)
Theorem flank_tie_break_nearest (i : Inputs) (s : Robot) :
  let v := sense i s in
  ENEMY_MIN <= distanceLeft v <= ENEMY_FAR ->
  ENEMY_MIN <= distanceRight v <= ENEMY_FAR ->
  ~ ENEMY_MIN <= distanceFront v <= ENEMY_FAR ->
  enemyDetected v = true /\
  enemyDirection v = (if distanceLeft v <? distanceRight v then -1 else 1) /\
  enemyDirection (tick s i)
  = (if distanceLeft v <? distanceRight v then -1 else 1).
Proof.
  intros v Hl Hr Hf; subst v.
  destruct (dispatch_frame i (ulong (millis i)) (sense i s))
    as (_ & _ & _ & _ & Hd).
  unfold tick, loop; rewrite Hd.
  destruct (sense_estimate i s) as (x & Ex & Hxf & Hxl & Hxr & _).
  rewrite <- Hxf in Hf; rewrite <- Hxl in Hl; rewrite <- Hxr in Hr.
  rewrite <- Hxl, <- Hxr, Ex.
  destruct (tie_break_update x Hl Hr Hf) as [Hp Hdir].
  now rewrite Hp, Hdir.
Qed.

(** Targets on both flanks, nothing ahead: the nearer flank wins, and the
    right flank wins a tie. *)
Lemma flank_tie_break_nearest_witness :
  (enemyDetected (sense (calm 1000 0 40 70) (enter power_on STATE_SEARCH 0))
   = true /\
   enemyDirection (sense (calm 1000 0 40 70) (enter power_on STATE_SEARCH 0))
   = -1 /\
   enemyDirection (tick (enter power_on STATE_SEARCH 0) (calm 1000 0 40 70))
   = -1) /\
  (enemyDetected (sense (calm 1000 0 70 40) (enter power_on STATE_SEARCH 0))
   = true /\
   enemyDirection (sense (calm 1000 0 70 40) (enter power_on STATE_SEARCH 0))
   = 1 /\
   enemyDirection (tick (enter power_on STATE_SEARCH 0) (calm 1000 0 70 40))
   = 1) /\
  (enemyDetected (sense (calm 1000 0 55 55) (enter power_on STATE_SEARCH 0))
   = true /\
   enemyDirection (sense (calm 1000 0 55 55) (enter power_on STATE_SEARCH 0))
   = 1 /\
   enemyDirection (tick (enter power_on STATE_SEARCH 0) (calm 1000 0 55 55))
   = 1).
Proof.
  split; [|split].
  - apply (flank_tie_break_nearest (calm 1000 0 40 70)
             (enter power_on STATE_SEARCH 0));
      vm_compute; intuition congruence.
  - apply (flank_tie_break_nearest (calm 1000 0 70 40)
             (enter power_on STATE_SEARCH 0));
      vm_compute; intuition congruence.
  - apply (flank_tie_break_nearest (calm 1000 0 55 55)
             (enter power_on STATE_SEARCH 0));
      vm_compute; intuition congruence.
Defined.

(** C8 (the direction outlives the target). One run from the end of
    [setup()]: at 100 ms no sensor has a target, at 300 ms the left sensor
    reports one at 60 cm, at 600 ms again no sensor has a target.  The
    first and the third iteration end with the same three stored distances
    (999, 999, 999) and yet with different stored directions, 0 and -1: the
    third one keeps the direction computed at 300 ms.  Each entry lists
    [distanceFront], [distanceLeft], [distanceRight], [enemyDetected],
    [enemyDirection]. *)
Lemma direction_persists_without_target :
  map (fun r => (distanceFront r, distanceLeft r, distanceRight r,
                 enemyDetected r, enemyDirection r))
    (history [calm 100 0 0 0; calm 300 0 60 0; calm 600 0 0 0]
       (enter power_on STATE_OPENING_MOVE 0))
  = [(999, 999, 999, false, 0);
     (999, 60, 999, true, -1);
     (999, 999, 999, false, -1)].
Proof. vm_compute; reflexivity. Qed.

(** C8 (what the estimate depends on). Take two iterations of the loop, of the same run or
    not, whose stored distances agree once the range sensors have been
    polled.  Their presence flags agree.  If a target is present their
    directions agree too: both are computed from those three distances
    alone.  If none is present, [updateEnemyStatus] assigns no direction,
    and each iteration keeps the direction its globals held before it. *)
Theorem estimate_from_current_readings (i1 i2 : Inputs) (s1 s2 : Robot) :
  let v1 := sense i1 s1 in
  let v2 := sense i2 s2 in
  distanceFront v1 = distanceFront v2 ->
  distanceLeft v1 = distanceLeft v2 ->
  distanceRight v1 = distanceRight v2 ->
  enemyDetected v1 = enemyDetected v2 /\
  (if enemyDetected v1 then enemyDirection v1 = enemyDirection v2
   else enemyDirection v1 = enemyDirection s1 /\
        enemyDirection v2 = enemyDirection s2).
Proof.
  intros v1 v2 Hf Hl Hr; subst v1 v2.
  destruct (sense_estimate i1 s1) as (x1 & E1 & F1 & L1 & R1 & D1).
  destruct (sense_estimate i2 s2) as (x2 & E2 & F2 & L2 & R2 & D2).
  rewrite <- F1, <- F2 in Hf; rewrite <- L1, <- L2 in Hl;
    rewrite <- R1, <- R2 in Hr.
  rewrite E1, E2.
  destruct (updateEnemyStatus_spec x1) as [-> ->].
  destruct (updateEnemyStatus_spec x2) as [-> ->].
  rewrite <- Hf, <- Hl, <- Hr, D1, D2.
  destruct (inBand (distanceFront x1)), (inBand (distanceLeft x1)),
    (inBand (distanceRight x1)); cbn; repeat split.
Qed.

(** A target 60 cm to the left seen by two robots whose previous
    directions differ, and no target seen by the same two robots. *)
Lemma estimate_from_current_readings_witness :
  (enemyDetected
     (sense (calm 1000 0 60 0)
        (set_enemyDirection (enter power_on STATE_SEARCH 0) 1))
   = enemyDetected
       (sense (calm 2000 0 60 0) (enter power_on STATE_ATTACK 500)) /\
   (if enemyDetected
         (sense (calm 1000 0 60 0)
            (set_enemyDirection (enter power_on STATE_SEARCH 0) 1))
    then
      enemyDirection
        (sense (calm 1000 0 60 0)
           (set_enemyDirection (enter power_on STATE_SEARCH 0) 1))
      = enemyDirection
          (sense (calm 2000 0 60 0) (enter power_on STATE_ATTACK 500))
    else
      enemyDirection
        (sense (calm 1000 0 60 0)
           (set_enemyDirection (enter power_on STATE_SEARCH 0) 1))
      = enemyDirection (set_enemyDirection (enter power_on STATE_SEARCH 0) 1)
      /\ enemyDirection
           (sense (calm 2000 0 60 0) (enter power_on STATE_ATTACK 500))
         = enemyDirection (enter power_on STATE_ATTACK 500))) /\
  (enemyDetected
     (sense (calm 1000 0 0 0)
        (set_enemyDirection (enter power_on STATE_SEARCH 0) 1))
   = enemyDetected
       (sense (calm 2000 0 0 0) (enter power_on STATE_ATTACK 500)) /\
   (if enemyDetected
         (sense (calm 1000 0 0 0)
            (set_enemyDirection (enter power_on STATE_SEARCH 0) 1))
    then
      enemyDirection
        (sense (calm 1000 0 0 0)
           (set_enemyDirection (enter power_on STATE_SEARCH 0) 1))
      = enemyDirection
          (sense (calm 2000 0 0 0) (enter power_on STATE_ATTACK 500))
    else
      enemyDirection
        (sense (calm 1000 0 0 0)
           (set_enemyDirection (enter power_on STATE_SEARCH 0) 1))
      = enemyDirection (set_enemyDirection (enter power_on STATE_SEARCH 0) 1)
      /\ enemyDirection
           (sense (calm 2000 0 0 0) (enter power_on STATE_ATTACK 500))
         = enemyDirection (enter power_on STATE_ATTACK 500))).
Proof.
  split.
  - apply (estimate_from_current_readings (calm 1000 0 60 0) (calm 2000 0 60 0)
             (set_enemyDirection (enter power_on STATE_SEARCH 0) 1)
             (enter power_on STATE_ATTACK 500)); reflexivity.
  - apply (estimate_from_current_readings (calm 1000 0 0 0) (calm 2000 0 0 0)
             (set_enemyDirection (enter power_on STATE_SEARCH 0) 1)
             (enter power_on STATE_ATTACK 500)); reflexivity.
Defined.

(** ** C5 and C6: the attack handler *)

(** The attack handler on an iteration without border, in terms of the
    globals [v] it is handed. *)
Lemma attack_tick (i : Inputs) (s : Robot) :
  currentState s = STATE_ATTACK ->
  noBorder i = true ->
  loop i s = executeAttack (ulong (millis i)) (sense i s) /\
  stateStartTime (sense i s) = stateStartTime s.
Proof.
  intros Hs Hn.
  destruct (sense_noBorder i s Hn) as (Hc & Ht & _).
  unfold loop, dispatch; rewrite Hc, Hs; split; [reflexivity|exact Ht].
Qed.

(** C5 (the last-observed distance is not recorded on entry). The robot
    attacks since 0 ms with [lastEnemyDistance] still at its initial 999;
    at 500 ms the front sensor reads 25 cm.  The iteration ends in
    [STATE_PUSH] with [pushStartTime] and [stateStartTime] at 500, the
    stored front distance 25, and [lastEnemyDistance] still 999. *)
Lemma push_entry_keeps_lastEnemyDistance :
  let s' := tick (enter power_on STATE_ATTACK 0) (calm 500 25 0 0) in
  currentState s' = STATE_PUSH /\
  pushStartTime s' = 500 /\
  stateStartTime s' = 500 /\
  distanceFront s' = 25 /\
  lastEnemyDistance s' = 999.
Proof. vm_compute; repeat split. Qed.

(** C5 (distance bands of the attack handler). On an iteration in [STATE_ATTACK] with no border flag
    set on which the handler does not give the target up (the target is not
    lost, or the state was entered no more than 1000 ms ago), with [d] the
    stored front distance: if [d <= 30] the iteration ends in [STATE_PUSH]
    with [pushStartTime] and [stateStartTime] set to the time of the
    iteration and no drive event; if [30 < d] the state stays
    [STATE_ATTACK], both time stamps are kept, and the drive command is
    [setMotors(153, 230)] when [d > 80] and [setMotors(165, 204)] when
    [d <= 80].  In both cases the attack handler leaves
    [lastEnemyDistance] as it was. *)
Theorem attack_distance_bands (i : Inputs) (s : Robot) :
  let cm := ulong (millis i) in
  let d := distanceFront (sense i s) in
  currentState s = STATE_ATTACK ->
  noBorder i = true ->
  targetLost (sense i s) && (ulong (cm - stateStartTime s) >? 1000) = false ->
  currentState (tick s i)
  = (if d <=? ENEMY_CLOSE then STATE_PUSH else STATE_ATTACK) /\
  pushStartTime (tick s i)
  = (if d <=? ENEMY_CLOSE then cm else pushStartTime s) /\
  stateStartTime (tick s i)
  = (if d <=? ENEMY_CLOSE then cm else stateStartTime s) /\
  snd (loop i s)
  = (if d <=? ENEMY_CLOSE then []
     else if d >? ENEMY_MEDIUM then setMotors SPEED_ARC_INNER SPEED_ARC_OUTER
     else setMotors SPEED_CLOSE_INNER SPEED_CLOSE_OUTER) /\
  lastEnemyDistance (tick s i) = lastEnemyDistance s.
Proof.
  intros cm d Hs Hn Hkeep; subst cm d.
  destruct (attack_tick i s Hs Hn) as [E Ht].
  destruct (sense_frame i s) as (Hc & _ & Hp & Hl & _).
  destruct (sense_noBorder i s Hn) as (Hc' & _).
  unfold tick; rewrite E; unfold executeAttack; cbv zeta.
  unfold targetLost in Hkeep; rewrite <- Ht in Hkeep.
  destruct (negb (enemyDetected (sense i s))
            || (distanceFront (sense i s) >? ENEMY_LOST)) eqn:El;
    cbn in Hkeep; try rewrite Hkeep;
    destruct (distanceFront (sense i s) <=? ENEMY_CLOSE);
    destruct (distanceFront (sense i s) >? ENEMY_MEDIUM);
    cbn; rewrite ?Hc', ?Hs, ?Ht, ?Hp, ?Hl; repeat split.
Qed.

(** A target at 25 cm, one at 45 cm, and one at 100 cm 400 ms after the
    attack began. *)
Lemma attack_distance_bands_witness :
  (currentState (tick (enter power_on STATE_ATTACK 0) (calm 400 25 0 0))
   = STATE_PUSH /\
   pushStartTime (tick (enter power_on STATE_ATTACK 0) (calm 400 25 0 0))
   = 400 /\
   stateStartTime (tick (enter power_on STATE_ATTACK 0) (calm 400 25 0 0))
   = 400 /\
   snd (loop (calm 400 25 0 0) (enter power_on STATE_ATTACK 0)) = [] /\
   lastEnemyDistance (tick (enter power_on STATE_ATTACK 0) (calm 400 25 0 0))
   = 999) /\
  (currentState (tick (enter power_on STATE_ATTACK 0) (calm 400 45 0 0))
   = STATE_ATTACK /\
   pushStartTime (tick (enter power_on STATE_ATTACK 0) (calm 400 45 0 0))
   = 0 /\
   stateStartTime (tick (enter power_on STATE_ATTACK 0) (calm 400 45 0 0))
   = 0 /\
   snd (loop (calm 400 45 0 0) (enter power_on STATE_ATTACK 0))
   = setMotors 165 204 /\
   lastEnemyDistance (tick (enter power_on STATE_ATTACK 0) (calm 400 45 0 0))
   = 999) /\
  (currentState (tick (enter power_on STATE_ATTACK 0) (calm 400 100 0 0))
   = STATE_ATTACK /\
   pushStartTime (tick (enter power_on STATE_ATTACK 0) (calm 400 100 0 0))
   = 0 /\
   stateStartTime (tick (enter power_on STATE_ATTACK 0) (calm 400 100 0 0))
   = 0 /\
   snd (loop (calm 400 100 0 0) (enter power_on STATE_ATTACK 0))
   = setMotors 153 230 /\
   lastEnemyDistance (tick (enter power_on STATE_ATTACK 0) (calm 400 100 0 0))
   = 999).
Proof.
  split; [|split].
  - apply (attack_distance_bands (calm 400 25 0 0)
             (enter power_on STATE_ATTACK 0)); reflexivity.
  - apply (attack_distance_bands (calm 400 45 0 0)
             (enter power_on STATE_ATTACK 0)); reflexivity.
  - apply (attack_distance_bands (calm 400 100 0 0)
             (enter power_on STATE_ATTACK 0)); reflexivity.
Defined.

(** When the attack handler gives up: the target is lost on this iteration
    and the state was entered more than 1000 ms ago.  The time for which
    the target has been lost is measured nowhere. *)
Lemma attack_gives_up_iff (i : Inputs) (s : Robot) :
  currentState s = STATE_ATTACK ->
  noBorder i = true ->
  currentState (tick s i) = STATE_SEARCH <->
  targetLost (sense i s) = true /\
  1000 < ulong (ulong (millis i) - stateStartTime s).
Proof.
  intros Hs Hn.
  destruct (attack_tick i s Hs Hn) as [E Ht].
  destruct (sense_noBorder i s Hn) as (Hc & _).
  unfold tick; rewrite E; unfold executeAttack, targetLost; cbv zeta.
  rewrite Ht.
  destruct (negb (enemyDetected (sense i s))
            || (distanceFront (sense i s) >? ENEMY_LOST));
    destruct (ulong (ulong (millis i) - stateStartTime s) >? 1000) eqn:E1;
    destruct (distanceFront (sense i s) <=? ENEMY_CLOSE);
    destruct (distanceFront (sense i s) >? ENEMY_MEDIUM);
    cbn; rewrite ?Hc, ?Hs; (split; [intros H | intros [H1 H2]]);
    first [ reflexivity | discriminate | lia | split; [reflexivity | lia] ].
Qed.

(** C6 (the grace period runs from state entry). The robot attacks since
    0 ms a target it holds at 40 cm.  At 1500 ms the target is still there:
    it is not lost, and the robot arcs toward it.  On the next iteration,
    50 ms later, the front sensor reads 60 cm, beyond the 50 cm threshold:
    the target has been lost for at most 50 ms, and the iteration ends in
    [STATE_SEARCH]. *)
Theorem attack_grace_measured_from_entry :
  let s := set_distanceFront (enter power_on STATE_ATTACK 0) 40 in
  let i1 := calm 1500 40 0 0 in
  let i2 := calm 1550 60 0 0 in
  targetLost (sense i1 s) = false /\
  targetLost (sense i2 (tick s i1)) = true /\
  trace [i1; i2] s
  = [(STATE_ATTACK, setMotors SPEED_CLOSE_INNER SPEED_CLOSE_OUTER);
     (STATE_SEARCH, [])].
Proof. vm_compute; repeat split. Qed.

(** ** C7: the drive channels *)

(** C7 (no clamp). A request of 300 is written as 300, forward or
    backward, through [setMotors] itself and through the intents built on
    it. *)
Lemma setMotors_writes_beyond_maximum :
  setMotors 300 (-300)
  = [AnalogWrite MOTOR_LEFT_FWD 300; AnalogWrite MOTOR_LEFT_BACK 0;
     AnalogWrite MOTOR_RIGHT_FWD 0; AnalogWrite MOTOR_RIGHT_BACK 300] /\
  moveForward 300
  = [AnalogWrite MOTOR_LEFT_FWD 300; AnalogWrite MOTOR_LEFT_BACK 0;
     AnalogWrite MOTOR_RIGHT_FWD 300; AnalogWrite MOTOR_RIGHT_BACK 0] /\
  moveBackward 300
  = [AnalogWrite MOTOR_LEFT_FWD 0; AnalogWrite MOTOR_LEFT_BACK 300;
     AnalogWrite MOTOR_RIGHT_FWD 0; AnalogWrite MOTOR_RIGHT_BACK 300] /\
  SPEED_MAX = 255.
Proof. vm_compute; repeat split. Qed.

Lemma setMotors_closed_form (leftSpeed rightSpeed : Z) :
  setMotors leftSpeed rightSpeed
  = [AnalogWrite MOTOR_LEFT_FWD (Z.max leftSpeed 0);
     AnalogWrite MOTOR_LEFT_BACK (Z.max (- leftSpeed) 0);
     AnalogWrite MOTOR_RIGHT_FWD (Z.max rightSpeed 0);
     AnalogWrite MOTOR_RIGHT_BACK (Z.max (- rightSpeed) 0)].
Proof.
  unfold setMotors.
  destruct (leftSpeed >? 0) eqn:L1; destruct (leftSpeed <? 0) eqn:L2;
    destruct (rightSpeed >? 0) eqn:R1; destruct (rightSpeed <? 0) eqn:R2;
    cbn [app]; repeat f_equal; lia.
Qed.

Lemma setMotors_pwm_ok (leftSpeed rightSpeed : Z) :
  - SPEED_MAX <= leftSpeed <= SPEED_MAX ->
  - SPEED_MAX <= rightSpeed <= SPEED_MAX ->
  Forall pwm_ok (setMotors leftSpeed rightSpeed).
Proof.
  intros Hl Hr; rewrite setMotors_closed_form.
  repeat constructor; cbn; lia.
Qed.

Lemma dispatch_pwm_ok (i : Inputs) (cm : Z) (v : Robot) :
  Forall pwm_ok (snd (dispatch i cm v)).
Proof.
  assert (D : pwm_ok (Delay 200) /\ pwm_ok (Delay 300)) by (split; exact I).
  destruct D as [D2 D3].
  unfold dispatch, executeOpeningMove, executeSearch, executeAttack,
    executePush, executeBorderEscape, moveForward, moveBackward,
    rotateClockwise, rotateCounterClockwise; cbv zeta.
  destruct (currentState v); split_ifs; cbn [snd];
    repeat first
      [ apply Forall_nil
      | apply setMotors_pwm_ok; unfold SPEED_MAX, SPEED_SEARCH, SPEED_PUSH,
          SPEED_ARC_INNER, SPEED_ARC_OUTER, SPEED_CLOSE_INNER,
          SPEED_CLOSE_OUTER; lia
      | apply Forall_cons; [assumption|]
      | apply Forall_app; split ].
Qed.

(** C7 (duties written to the channels).  No motion intent applies a
    clamp.  For every requested speed an [int] can hold and negate
    (-32767..32767), [stopMotors] writes 0 on the four channels, and
    [moveForward], [moveBackward], [rotateClockwise],
    [rotateCounterClockwise] and the differential [setMotors] write, on
    each side, the requested magnitude as it is on the channel the sign
    selects and 0 on the other one: a request above [SPEED_MAX] = 255 is
    written as requested.  The speeds the control loop itself requests are
    the configured constants, none above 255, so on every iteration, from
    any globals and inputs, every duty written lies in 0..255. *)
Theorem drive_duties_unclamped_yet_bounded
  (speed leftSpeed rightSpeed : Z) (i : Inputs) (s : Robot) :
  -32767 <= speed <= 32767 ->
  -32767 <= leftSpeed <= 32767 ->
  -32767 <= rightSpeed <= 32767 ->
  stopMotors
  = [AnalogWrite MOTOR_LEFT_FWD 0; AnalogWrite MOTOR_LEFT_BACK 0;
     AnalogWrite MOTOR_RIGHT_FWD 0; AnalogWrite MOTOR_RIGHT_BACK 0] /\
  moveForward speed
  = [AnalogWrite MOTOR_LEFT_FWD (Z.max speed 0);
     AnalogWrite MOTOR_LEFT_BACK (Z.max (- speed) 0);
     AnalogWrite MOTOR_RIGHT_FWD (Z.max speed 0);
     AnalogWrite MOTOR_RIGHT_BACK (Z.max (- speed) 0)] /\
  moveBackward speed
  = [AnalogWrite MOTOR_LEFT_FWD (Z.max (- speed) 0);
     AnalogWrite MOTOR_LEFT_BACK (Z.max speed 0);
     AnalogWrite MOTOR_RIGHT_FWD (Z.max (- speed) 0);
     AnalogWrite MOTOR_RIGHT_BACK (Z.max speed 0)] /\
  rotateClockwise speed
  = [AnalogWrite MOTOR_LEFT_FWD (Z.max speed 0);
     AnalogWrite MOTOR_LEFT_BACK (Z.max (- speed) 0);
     AnalogWrite MOTOR_RIGHT_FWD (Z.max (- speed) 0);
     AnalogWrite MOTOR_RIGHT_BACK (Z.max speed 0)] /\
  rotateCounterClockwise speed
  = [AnalogWrite MOTOR_LEFT_FWD (Z.max (- speed) 0);
     AnalogWrite MOTOR_LEFT_BACK (Z.max speed 0);
     AnalogWrite MOTOR_RIGHT_FWD (Z.max speed 0);
     AnalogWrite MOTOR_RIGHT_BACK (Z.max (- speed) 0)] /\
  setMotors leftSpeed rightSpeed
  = [AnalogWrite MOTOR_LEFT_FWD (Z.max leftSpeed 0);
     AnalogWrite MOTOR_LEFT_BACK (Z.max (- leftSpeed) 0);
     AnalogWrite MOTOR_RIGHT_FWD (Z.max rightSpeed 0);
     AnalogWrite MOTOR_RIGHT_BACK (Z.max (- rightSpeed) 0)] /\
  Forall pwm_ok (snd (loop i s)).
Proof.
  intros _ _ _.
  unfold stopMotors, moveForward, moveBackward, rotateClockwise,
    rotateCounterClockwise.
  rewrite !setMotors_closed_form, !Z.opp_involutive.
  repeat split.
  unfold loop; apply dispatch_pwm_ok.
Qed.

(** A request of 300 through every intent, and an iteration of the push
    handler. *)
Lemma drive_duties_unclamped_yet_bounded_witness :
  stopMotors
  = [AnalogWrite MOTOR_LEFT_FWD 0; AnalogWrite MOTOR_LEFT_BACK 0;
     AnalogWrite MOTOR_RIGHT_FWD 0; AnalogWrite MOTOR_RIGHT_BACK 0] /\
  moveForward 300
  = [AnalogWrite MOTOR_LEFT_FWD 300; AnalogWrite MOTOR_LEFT_BACK 0;
     AnalogWrite MOTOR_RIGHT_FWD 300; AnalogWrite MOTOR_RIGHT_BACK 0] /\
  moveBackward 300
  = [AnalogWrite MOTOR_LEFT_FWD 0; AnalogWrite MOTOR_LEFT_BACK 300;
     AnalogWrite MOTOR_RIGHT_FWD 0; AnalogWrite MOTOR_RIGHT_BACK 300] /\
  rotateClockwise 300
  = [AnalogWrite MOTOR_LEFT_FWD 300; AnalogWrite MOTOR_LEFT_BACK 0;
     AnalogWrite MOTOR_RIGHT_FWD 0; AnalogWrite MOTOR_RIGHT_BACK 300] /\
  rotateCounterClockwise 300
  = [AnalogWrite MOTOR_LEFT_FWD 0; AnalogWrite MOTOR_LEFT_BACK 300;
     AnalogWrite MOTOR_RIGHT_FWD 300; AnalogWrite MOTOR_RIGHT_BACK 0] /\
  setMotors (-400) 300
  = [AnalogWrite MOTOR_LEFT_FWD 0; AnalogWrite MOTOR_LEFT_BACK 400;
     AnalogWrite MOTOR_RIGHT_FWD 300; AnalogWrite MOTOR_RIGHT_BACK 0] /\
  Forall pwm_ok
    (snd (loop (calm 100 20 0 0) (enter power_on STATE_PUSH 0))).
Proof.
  apply (drive_duties_unclamped_yet_bounded 300 (-400) 300
           (calm 100 20 0 0) (enter power_on STATE_PUSH 0)); lia.
Defined.

(** ** C4: deadlock recovery in the push handler *)

Lemma recovery_events :
  recovery
  = [AnalogWrite MOTOR_LEFT_FWD 0; AnalogWrite MOTOR_LEFT_BACK 255;
     AnalogWrite MOTOR_RIGHT_FWD 0; AnalogWrite MOTOR_RIGHT_BACK 255;
     Delay 300;
     AnalogWrite MOTOR_LEFT_FWD 255; AnalogWrite MOTOR_LEFT_BACK 0;
     AnalogWrite MOTOR_RIGHT_FWD 0; AnalogWrite MOTOR_RIGHT_BACK 255;
     Delay 300].
Proof. reflexivity. Qed.

Lemma sense_holds_front (d : Z) (i : Inputs) (s : Robot) :
  distanceFront s = d -> cmFront i = d -> 2 <= d <= 400 ->
  distanceFront (sense i s) = d.
Proof.
  intros Hd Hi Hr; unfold sense, readUltrasonicSensors; cbv zeta.
  match goal with
  | |- context [updateEnemyStatus ?x] =>
      destruct (updateEnemyStatus_frame x) as (_ & _ & _ & _ & -> & _)
  end.
  rewrite Hi, (readUltrasonic_valid d Hr).
  unfold borderPriority; split_ifs; cbn; auto.
Qed.

Lemma sense_detects_front (i : Inputs) (s : Robot) :
  ENEMY_MIN <= distanceFront (sense i s) <= ENEMY_FAR ->
  enemyDetected (sense i s) = true.
Proof.
  intros H.
  destruct (sense_estimate i s) as (x & Ex & Hf & _).
  rewrite <- Hf in H; apply inBand_iff in H.
  rewrite Ex; destruct (updateEnemyStatus_spec x) as [-> _].
  now rewrite H.
Qed.

(** One iteration of the push handler while the front reading is held. *)
Lemma push_step (T d : Z) (i : Inputs) (s : Robot) :
  pushing T d s ->
  ENEMY_MIN <= d <= ENEMY_LOST ->
  holds d i ->
  if (elapsedSince T i >? DEADLOCK_TIME)
     && (Z.abs (d - lastEnemyDistance s) <? 5)
  then currentState (tick s i) = STATE_ATTACK /\ snd (loop i s) = recovery
  else pushing T d (tick s i) /\ lastEnemyDistance (tick s i) = d /\
       snd (loop i s) = moveForward SPEED_PUSH.
Proof.
  intros (Hs & HT & Hd) Hr (Hn & Hi).
  unfold ENEMY_MIN, ENEMY_LOST in Hr.
  destruct (sense_noBorder i s Hn) as (Hc & _).
  destruct (sense_frame i s) as (_ & _ & Hp & Hl & _).
  assert (Hf : distanceFront (sense i s) = d)
    by (apply sense_holds_front; [assumption | assumption | lia]).
  assert (He : enemyDetected (sense i s) = true)
    by (apply sense_detects_front; rewrite Hf;
        unfold ENEMY_MIN, ENEMY_FAR; lia).
  unfold tick, loop, dispatch; rewrite Hc, Hs.
  unfold executePush, elapsedSince, pushing; cbv zeta.
  rewrite Hp, HT, Hl, Hf.
  destruct (ulong (ulong (millis i) - T) >? DEADLOCK_TIME);
    destruct (Z.abs (d - lastEnemyDistance s) <? 5); cbn [andb fst snd].
  1: cbn; split; reflexivity.
  all: cbn; rewrite He, Hf;
    replace (d >? ENEMY_LOST) with false by (unfold ENEMY_LOST; lia);
    cbn; rewrite Hc, Hs, Hp, HT, Hf; repeat split.
Qed.

(** Within the deadlock window the robot keeps pushing. *)
Lemma push_within_window (T d : Z) (pre : list Inputs) :
  ENEMY_MIN <= d <= ENEMY_LOST ->
  forall s : Robot,
    pushing T d s ->
    Forall (holds d) pre ->
    Forall (fun i => elapsedSince T i <= DEADLOCK_TIME) pre ->
    Forall (pushing T d) (history pre s) /\
    pushing T d (run pre s) /\
    match pre with
    | [] => True
    | _ :: _ => lastEnemyDistance (run pre s) = d
    end.
Proof.
  intros Hr; induction pre as [|i rest IH]; intros s Hs Hh He.
  - cbn; repeat split; try constructor; apply Hs.
  - inversion Hh as [|? ? Hi Hh']; subst.
    inversion He as [|? ? Hei He']; subst.
    pose proof (push_step T d i s Hs Hr Hi) as St.
    replace (elapsedSince T i >? DEADLOCK_TIME) with false in St by lia.
    cbn [andb] in St; destruct St as (Hs' & Hl' & _).
    destruct (IH (tick s i) Hs' Hh' He') as (A & B & C).
    cbn [history run fold_left]; repeat split.
    + constructor; assumption.
    + apply B.
    + apply B.
    + apply B.
    + destruct rest; [exact Hl' | exact C].
Qed.

(** C4 (a held target at contact range is dropped).  The robot attacks
    since 0 ms with 5 cm stored for the front and nothing on the flanks;
    every iteration has no border flag and a front measurement of 5 cm.
    At 100 ms the attack handler enters [STATE_PUSH].  At 150 ms the push
    handler finds no enemy, since 5 cm is below [ENEMY_MIN], and enters
    [STATE_SEARCH], where the robot still is after 2101 ms and 2300 ms,
    past the deadlock window: [STATE_ATTACK] is not reached and no reverse
    is driven.  Each entry lists the state, [distanceFront],
    [pushStartTime] and the drive events of the iteration. *)
Lemma push_on_near_target_ends_in_search :
  let ticks := [calm 100 5 0 0; calm 150 5 0 0; calm 1000 5 0 0;
                calm 2101 5 0 0; calm 2300 5 0 0] in
  let s := set_distanceFront (enter power_on STATE_ATTACK 0) 5 in
  forallb noBorder ticks = true /\
  map cmFront ticks = [5; 5; 5; 5; 5] /\
  map (fun r => (currentState r, distanceFront r, pushStartTime r))
    (history ticks s)
  = [(STATE_PUSH, 5, 100); (STATE_SEARCH, 5, 100); (STATE_SEARCH, 5, 100);
     (STATE_SEARCH, 5, 100); (STATE_SEARCH, 5, 100)] /\
  map snd (trace ticks s)
  = [[]; []; rotateClockwise SPEED_SEARCH; rotateClockwise SPEED_SEARCH;
     rotateClockwise SPEED_SEARCH].
Proof. vm_compute; repeat split. Qed.

(** X17. Recovery from a push that makes no progress.  The robot is in
    [STATE_PUSH], entered at [T], and on every later iteration no border
    flag is set and the front distance is held at one value [d] with
    [ENEMY_MIN] = 10 <= [d] <= [ENEMY_LOST] = 50, so that the target stays
    detected and not lost.  Let the iterations [pre] fall within the
    deadlock window (elapsed time since [T] at most 2000 ms) and the two
    iterations [i1], [i2] after them fall past it.  Then the state is
    [STATE_PUSH] after every iteration of [pre]; if one of them has run,
    [lastEnemyDistance] is [d] at their end.  The state becomes
    [STATE_ATTACK] on [i1] when [lastEnemyDistance] is then within 5 of
    [d], and otherwise on [i2], [i1] still pushing forward.  The
    iteration that makes the transition drives the recovery sequence:
    both wheels backward at 255, a wait of 300 ms, a clockwise rotation at
    255, a wait of 300 ms. *)
Theorem push_deadlock_recovery
  (T d : Z) (s : Robot) (pre : list Inputs) (i1 i2 : Inputs) :
  let s1 := run pre s in
  let s2 := tick s1 i1 in
  pushing T d s ->
  ENEMY_MIN <= d <= ENEMY_LOST ->
  Forall (holds d) (pre ++ [i1; i2]) ->
  Forall (fun i => elapsedSince T i <= DEADLOCK_TIME) pre ->
  DEADLOCK_TIME < elapsedSince T i1 ->
  DEADLOCK_TIME < elapsedSince T i2 ->
  Forall (fun r => currentState r = STATE_PUSH) (history pre s) /\
  match pre with
  | [] => True
  | _ :: _ => lastEnemyDistance s1 = d
  end /\
  (if Z.abs (d - lastEnemyDistance s1) <? 5
   then currentState s2 = STATE_ATTACK /\ snd (loop i1 s1) = recovery
   else currentState s2 = STATE_PUSH /\
        snd (loop i1 s1) = moveForward SPEED_PUSH /\
        currentState (tick s2 i2) = STATE_ATTACK /\
        snd (loop i2 s2) = recovery).
Proof.
  intros s1 s2 Hs Hr Hh He H1 H2; subst s1 s2.
  apply Forall_app in Hh; destruct Hh as [Hpre Hlast].
  inversion Hlast as [|? ? Hi1 Hlast']; subst.
  inversion Hlast' as [|? ? Hi2 _]; subst.
  destruct (push_within_window T d pre Hr s Hs Hpre He) as (A & B & C).
  split; [|split].
  - eapply Forall_impl; [|exact A]. intros r Hp; apply Hp.
  - exact C.
  - pose proof (push_step T d i1 (run pre s) B Hr Hi1) as St1.
    replace (elapsedSince T i1 >? DEADLOCK_TIME) with true in St1 by lia.
    cbn [andb] in St1.
    destruct (Z.abs (d - lastEnemyDistance (run pre s)) <? 5); [exact St1|].
    destruct St1 as (B' & L' & M').
    pose proof (push_step T d i2 (tick (run pre s) i1) B' Hr Hi2) as St2.
    replace (elapsedSince T i2 >? DEADLOCK_TIME) with true in St2 by lia.
    rewrite L' in St2.
    replace (Z.abs (d - d) <? 5) with true in St2 by lia.
    cbn [andb] in St2.
    destruct B' as (Bs & _); destruct St2 as (X & Y).
    repeat split; assumption.
Qed.

(** A push begun at 100 ms against a target held at 20 cm: three
    iterations inside the window, then 2101 ms and 2200 ms. *)
Lemma push_deadlock_recovery_witness :
  Forall (fun r => currentState r = STATE_PUSH)
    (history [calm 150 20 0 0; calm 1000 20 0 0; calm 2100 20 0 0]
       (set_distanceFront
          (set_pushStartTime (enter power_on STATE_PUSH 100) 100) 20)) /\
  lastEnemyDistance
    (run [calm 150 20 0 0; calm 1000 20 0 0; calm 2100 20 0 0]
       (set_distanceFront
          (set_pushStartTime (enter power_on STATE_PUSH 100) 100) 20)) = 20 /\
  currentState
    (tick
       (run [calm 150 20 0 0; calm 1000 20 0 0; calm 2100 20 0 0]
          (set_distanceFront
             (set_pushStartTime (enter power_on STATE_PUSH 100) 100) 20))
       (calm 2101 20 0 0)) = STATE_ATTACK /\
  snd (loop (calm 2101 20 0 0)
         (run [calm 150 20 0 0; calm 1000 20 0 0; calm 2100 20 0 0]
            (set_distanceFront
               (set_pushStartTime (enter power_on STATE_PUSH 100) 100) 20)))
  = recovery.
Proof.
  apply (push_deadlock_recovery 100 20
           (set_distanceFront
              (set_pushStartTime (enter power_on STATE_PUSH 100) 100) 20)
           [calm 150 20 0 0; calm 1000 20 0 0; calm 2100 20 0 0]
           (calm 2101 20 0 0) (calm 2200 20 0 0)).
  - repeat split.
  - unfold ENEMY_MIN, ENEMY_LOST; lia.
  - repeat constructor.
  - repeat constructor; vm_compute; discriminate.
  - vm_compute; reflexivity.
  - vm_compute; reflexivity.
Defined.

(** * Further properties of the sketch *)

(** ** The state graph *)

Lemma sense_state_cases (i : Inputs) (s : Robot) :
  currentState (sense i s) = STATE_BORDER_ESCAPE \/
  (noBorder i = true /\ currentState (sense i s) = currentState s /\
   stateStartTime (sense i s) = stateStartTime s).
Proof.
  destruct (noBorder i) eqn:Hn.
  - right; destruct (sense_noBorder i s Hn) as (Hc & Ht & _); auto.
  - left; destruct (sense_frame i s) as (-> & _).
    unfold borderPriority; rewrite readAllIRSensors_noBorder, Hn; cbn.
    destruct (currentState s) eqn:E; cbn; try reflexivity; exact E.
Qed.

Lemma sense_flags_consistent (i : Inputs) (s : Robot) :
  borderDetected (sense i s)
  = borderFrontRight (sense i s) || borderFrontLeft (sense i s)
      || borderRight (sense i s) || borderLeft (sense i s)
      || borderBack (sense i s).
Proof.
  destruct (sense_frame i s)
    as (_ & _ & _ & _ & -> & -> & -> & -> & -> & ->).
  unfold noBorder; now rewrite negb_involutive.
Qed.

Lemma dispatch_successors (i : Inputs) (cm : Z) (v : Robot) :
  currentState v <> STATE_BORDER_ESCAPE ->
  In (currentState (fst (dispatch i cm v))) (successors (currentState v)).
Proof.
  intros Hne.
  unfold dispatch, executeOpeningMove, executeSearch, executeAttack,
    executePush; cbv zeta.
  destruct (currentState v) eqn:E; try (now contradict Hne);
    split_ifs; cbn; rewrite ?E; cbn; auto.
Qed.

Lemma escape_in_successors (a : State) :
  In STATE_BORDER_ESCAPE (successors a).
Proof. destruct a; cbn; auto 6. Qed.

Lemma edge_realised (a b : State) :
  existsb (fun p => State_eqb (currentState (fst p)) a
                    && State_eqb (currentState (tick (fst p) (snd p))) b)
    edge_samples = true ->
  exists (s : Robot) (i : Inputs),
    currentState s = a /\ currentState (tick s i) = b.
Proof.
  intros H; apply existsb_exists in H; destruct H as ([s i] & _ & H).
  apply andb_true_iff in H; destruct H as [Ha Hb]; cbn [fst snd] in *.
  exists s, i; split.
  - destruct (currentState s), a; try discriminate Ha; reflexivity.
  - destruct (currentState (tick s i)), b; try discriminate Hb; reflexivity.
Qed.

(** X1. The state graph of the controller.  Whatever the globals and the
    inputs, one iteration of the loop takes the state to one of its
    [successors]: the start-up state only to itself or the border escape,
    the opening move only to itself, the search or the border escape, the
    search to itself, the attack or the border escape, the attack to
    itself, the search, the push or the border escape, the push to itself,
    the attack, the search or the border escape, and the border escape
    only to itself.  Every edge listed is taken by some robot on some
    input, so the graph is exactly this one. *)
Theorem state_graph :
  (forall (s : Robot) (i : Inputs),
      In (currentState (tick s i)) (successors (currentState s))) /\
  Forall
    (fun a =>
       Forall
         (fun b =>
            exists (s : Robot) (i : Inputs),
              currentState s = a /\ currentState (tick s i) = b)
         (successors a))
    all_states.
Proof.
  split.
  - intros s i.
    destruct (sense_state_cases i s) as [Hb | (_ & Hc & _)].
    + assert (E : currentState (tick s i) = STATE_BORDER_ESCAPE).
      { unfold tick, loop, dispatch; rewrite Hb.
        apply escape_keeps_state;
          [exact Hb | apply sense_flags_consistent]. }
      rewrite E; apply escape_in_successors.
    + assert (D : currentState s = STATE_BORDER_ESCAPE \/
                  currentState s <> STATE_BORDER_ESCAPE)
        by (destruct (currentState s); (now left) || (right; discriminate)).
      destruct D as [E | E].
      * rewrite (border_escape_absorbing i s E), E; cbn; auto.
      * rewrite <- Hc; unfold tick, loop.
        apply dispatch_successors; rewrite Hc; exact E.
  - repeat constructor; apply edge_realised; vm_compute; reflexivity.
Qed.

(** ** Time stamps of the transitions *)

Lemma dispatch_control (i : Inputs) (cm : Z) (v : Robot) :
  let u := fst (dispatch i cm v) in
  (currentState u = currentState v \/ stateStartTime u = cm) /\
  pushStartTime u
  = (if State_eqb (currentState v) STATE_ATTACK
        && State_eqb (currentState u) STATE_PUSH
     then cm else pushStartTime v).
Proof.
  cbv zeta.
  unfold dispatch, executeOpeningMove, executeSearch, executeAttack,
    executePush, executeBorderEscape; cbv zeta.
  destruct (currentState v) eqn:E; split_ifs; cbn in *; rewrite ?E in *;
    cbn in *; split; auto; discriminate.
Qed.

Lemma sense_entered_escape (i : Inputs) (s : Robot) :
  currentState s <> STATE_BORDER_ESCAPE ->
  currentState (sense i s) = STATE_BORDER_ESCAPE ->
  stateStartTime (sense i s) = ulong (millis i) /\
  fst (dispatch i (ulong (millis i)) (sense i s)) = sense i s.
Proof.
  intros Hs Hv.
  destruct (sense_frame i s) as (Hc & Ht & _ & _ & _ & _ & _ & _ & _ & Hd).
  assert (F : borderDetected (readAllIRSensors i s) = true /\
              stateStartTime (sense i s) = ulong (millis i)).
  { rewrite Ht; rewrite Hv in Hc; revert Hc; unfold borderPriority.
    destruct (borderDetected (readAllIRSensors i s)); cbn.
    - destruct (State_eqb (currentState s) STATE_BORDER_ESCAPE) eqn:Q; cbn.
      + intros Hc; now contradict Hs.
      + intros _; split; reflexivity.
    - intros Hc; now contradict Hs. }
  destruct F as [Fd Ft]; split; [exact Ft|].
  unfold dispatch; rewrite Hv.
  apply escape_first_phase; [exact Ft|].
  rewrite <- sense_flags_consistent, Hd.
  rewrite readAllIRSensors_noBorder in Fd; exact Fd.
Qed.

(** X2. Every change of state is time-stamped.  If an iteration of the
    loop ends in a state other than the one it started in, [stateStartTime]
    is the time of that iteration; and [pushStartTime] is that time too if
    the new state is the push, and is left alone otherwise. *)
Theorem transition_records_entry_time (i : Inputs) (s : Robot) :
  currentState (tick s i) <> currentState s ->
  stateStartTime (tick s i) = ulong (millis i) /\
  pushStartTime (tick s i)
  = (if State_eqb (currentState (tick s i)) STATE_PUSH
     then ulong (millis i) else pushStartTime s).
Proof.
  intros Hne.
  destruct (sense_frame i s) as (_ & _ & Hp & _).
  destruct (sense_state_cases i s) as [Hb | (_ & Hc & Ht)].
  - assert (Hs : currentState s <> STATE_BORDER_ESCAPE).
    { intros E; apply Hne; rewrite E; now apply border_escape_absorbing. }
    destruct (sense_entered_escape i s Hs Hb) as [Ft Fd].
    unfold tick, loop in *; rewrite Fd, Hb, Ft, Hp; split; reflexivity.
  - pose proof (dispatch_control i (ulong (millis i)) (sense i s)) as D.
    cbv zeta in D; destruct D as [[D1 | D1] D2].
    + exfalso; apply Hne; unfold tick, loop; now rewrite D1.
    + assert (Hv : currentState (sense i s) <> STATE_BORDER_ESCAPE).
      { intros E; apply Hne; rewrite <- Hc, E.
        apply border_escape_absorbing; now rewrite <- Hc. }
      pose proof (dispatch_successors i (ulong (millis i)) (sense i s) Hv)
        as G.
      unfold tick, loop in *; split; [exact D1|].
      rewrite D2, Hp; rewrite Hc in *.
      destruct (currentState s);
        destruct (currentState
                    (fst (dispatch i (ulong (millis i)) (sense i s))));
        cbn in G |- *; try reflexivity;
        try (exfalso; apply Hne; reflexivity);
        exfalso; intuition discriminate.
Qed.

(** An attack that closes to 25 cm enters the push at 400 ms. *)
Lemma transition_records_entry_time_witness :
  stateStartTime (tick (enter power_on STATE_ATTACK 0) (calm 400 25 0 0))
  = 400 /\
  pushStartTime (tick (enter power_on STATE_ATTACK 0) (calm 400 25 0 0))
  = 400.
Proof.
  apply (transition_records_entry_time (calm 400 25 0 0)
           (enter power_on STATE_ATTACK 0)).
  vm_compute; discriminate.
Defined.

(** ** What an iteration reads of the globals *)

Lemma dispatch_frame_border (i : Inputs) (cm : Z) (v : Robot) :
  let u := fst (dispatch i cm v) in
  borderFrontRight u = borderFrontRight v /\
  borderFrontLeft u = borderFrontLeft v /\
  borderRight u = borderRight v /\
  borderLeft u = borderLeft v /\
  borderBack u = borderBack v /\
  borderDetected u = borderDetected v /\
  lastUltraFront u = lastUltraFront v /\
  lastUltraSide u = lastUltraSide v.
Proof.
  cbv zeta.
  unfold dispatch, executeOpeningMove, executeSearch, executeAttack,
    executePush, executeBorderEscape; cbv zeta.
  destruct (currentState v); split_ifs; cbn; repeat split; assumption.
Qed.

(** X3. The border flags are never stale.  When an iteration of the loop
    ends, each of the five flags says whether this iteration's reading of
    its sensor was above [IR_THRESHOLD], and [borderDetected] is their
    disjunction: no handler writes them and nothing of their earlier
    values is left. *)
Theorem border_flags_refreshed (i : Inputs) (s : Robot) :
  borderFrontRight (tick s i) = (analogFR i >? IR_THRESHOLD) /\
  borderFrontLeft (tick s i) = (analogFL i >? IR_THRESHOLD) /\
  borderRight (tick s i) = (analogR i >? IR_THRESHOLD) /\
  borderLeft (tick s i) = (analogL i >? IR_THRESHOLD) /\
  borderBack (tick s i) = (analogB i >? IR_THRESHOLD) /\
  borderDetected (tick s i)
  = borderFrontRight (tick s i) || borderFrontLeft (tick s i)
      || borderRight (tick s i) || borderLeft (tick s i)
      || borderBack (tick s i).
Proof.
  destruct (dispatch_frame_border i (ulong (millis i)) (sense i s))
    as (A & B & C & D & E & F & _).
  unfold tick, loop; rewrite A, B, C, D, E, F.
  destruct (sense_frame i s)
    as (_ & _ & _ & _ & -> & -> & -> & -> & -> & ->).
  unfold noBorder; rewrite negb_involutive; repeat split.
Qed.

Lemma readUltrasonicSensors_polled (i : Inputs) (cm : Z) (s : Robot) :
  readUltrasonicSensors i cm s = updateEnemyStatus (polled i cm s).
Proof.
  destruct s; unfold readUltrasonicSensors, polled; cbn.
  destruct (ulong (cm - lastUltraFront0) >=? ULTRA_INTERVAL);
    unfold set_lastUltraFront, set_distanceFront; cbn;
    destruct (ulong (cm - lastUltraSide0) >=? ULTRA_SIDE_INTERVAL);
    reflexivity.
Qed.

(** The globals after the border check of [loop()], field by field. *)
Lemma borderPriority_fields (i : Inputs) (s : Robot) :
  let cm := ulong (millis i) in
  let fire :=
    negb (noBorder i)
    && negb (State_eqb (currentState s) STATE_BORDER_ESCAPE) in
  borderPriority cm (readAllIRSensors i s)
  = mkRobot (if fire then STATE_BORDER_ESCAPE else currentState s)
      (analogFR i >? IR_THRESHOLD) (analogFL i >? IR_THRESHOLD)
      (analogR i >? IR_THRESHOLD) (analogL i >? IR_THRESHOLD)
      (analogB i >? IR_THRESHOLD) (negb (noBorder i))
      (distanceFront s) (distanceLeft s) (distanceRight s)
      (if fire then cm else stateStartTime s)
      (lastUltraFront s) (lastUltraSide s) (pushStartTime s)
      (lastEnemyDistance s) (enemyDetected s) (enemyDirection s).
Proof.
  destruct s; unfold borderPriority, readAllIRSensors, noBorder; cbn.
  rewrite negb_involutive.
  destruct ((analogFR i >? IR_THRESHOLD) || (analogFL i >? IR_THRESHOLD)
            || (analogR i >? IR_THRESHOLD) || (analogL i >? IR_THRESHOLD)
            || (analogB i >? IR_THRESHOLD));
    destruct (State_eqb currentState0 STATE_BORDER_ESCAPE); reflexivity.
Qed.

Lemma sense_before_estimate (i : Inputs) (s1 s2 : Robot) :
  carried s1 = carried s2 ->
  exists x1 x2 : Robot,
    sense i s1 = updateEnemyStatus x1 /\
    sense i s2 = updateEnemyStatus x2 /\
    set_enemyDirection (set_enemyDetected x1 false) 0
    = set_enemyDirection (set_enemyDetected x2 false) 0.
Proof.
  unfold carried; intros H; injection H; intros.
  unfold sense; rewrite !readUltrasonicSensors_polled.
  eexists; eexists; split; [reflexivity | split; [reflexivity|]].
  pose proof (borderPriority_fields i s1) as P1.
  pose proof (borderPriority_fields i s2) as P2.
  cbv zeta in P1, P2; rewrite P1, P2; clear P1 P2.
  repeat match goal with
         | E : _ = _ |- _ => rewrite E; clear E
         end.
  reflexivity.
Qed.

Lemma updateEnemyStatus_ignores_estimate (x1 x2 : Robot) :
  set_enemyDirection (set_enemyDetected x1 false) 0
  = set_enemyDirection (set_enemyDetected x2 false) 0 ->
  set_enemyDirection (updateEnemyStatus x1) 0
  = set_enemyDirection (updateEnemyStatus x2) 0 /\
  (enemyDetected (updateEnemyStatus x1) = true ->
   enemyDirection (updateEnemyStatus x1)
   = enemyDirection (updateEnemyStatus x2)).
Proof.
  destruct x1, x2; unfold set_enemyDirection, set_enemyDetected; cbn.
  intros H; injection H; intros; subst.
  unfold updateEnemyStatus; cbn.
  destruct ((distanceFront1 >=? ENEMY_MIN) && (distanceFront1 <=? ENEMY_FAR)),
    ((distanceLeft1 >=? ENEMY_MIN) && (distanceLeft1 <=? ENEMY_FAR)),
    ((distanceRight1 >=? ENEMY_MIN) && (distanceRight1 <=? ENEMY_FAR));
    cbn; (split; [reflexivity | intros D]);
    first [reflexivity | discriminate D].
Qed.

Lemma sense_ignores_estimate (i : Inputs) (s1 s2 : Robot) :
  carried s1 = carried s2 ->
  set_enemyDirection (sense i s1) 0 = set_enemyDirection (sense i s2) 0 /\
  (enemyDetected (sense i s1) = true ->
   enemyDirection (sense i s1) = enemyDirection (sense i s2)).
Proof.
  intros H.
  destruct (sense_before_estimate i s1 s2 H) as (x1 & x2 & -> & -> & E).
  now apply updateEnemyStatus_ignores_estimate.
Qed.

Lemma dispatch_ignores_direction (i : Inputs) (cm : Z) (a b : Robot) :
  set_enemyDirection a 0 = set_enemyDirection b 0 ->
  (enemyDetected a = true -> enemyDirection a = enemyDirection b) ->
  snd (dispatch i cm a) = snd (dispatch i cm b) /\
  set_enemyDirection (fst (dispatch i cm a)) 0
  = set_enemyDirection (fst (dispatch i cm b)) 0.
Proof.
  destruct a, b; unfold set_enemyDirection; cbn; intros H D.
  injection H; intros; subst.
  unfold dispatch, executeOpeningMove, executeSearch, executeAttack,
    executePush, executeBorderEscape; cbn.
  destruct currentState1; cbn.
  6: split_ifs; cbn; split; reflexivity.
  3: { destruct enemyDetected1; cbn; [|split; reflexivity].
       rewrite (D eq_refl); split_ifs; cbn; split; reflexivity. }
  all: split_ifs; cbn; split; reflexivity.
Qed.

Lemma carried_set_enemyDirection (x : Robot) (d : Z) :
  carried (set_enemyDirection x d) = carried x.
Proof. reflexivity. Qed.

Lemma enemyDetected_set_enemyDirection (x : Robot) (d : Z) :
  enemyDetected (set_enemyDirection x d) = enemyDetected x.
Proof. reflexivity. Qed.

(** X4. The drive commands do not depend on a stale estimate.  Two
    robots that agree on the state, the three stored distances, the four
    time stamps and [lastEnemyDistance] issue the same drive events
    ([analogWrite]s and [delay]s) on the same inputs, and agree on those
    globals and on the presence flag afterwards, whatever their border
    flags, presence flags and directions were before.  The statement is
    about the drive events and the globals only: the [Serial] diagnostics,
    in which [executeAttack] prints [enemyDirection], are not part of it. *)
Theorem drive_ignores_stale_estimate (i : Inputs) (s1 s2 : Robot) :
  carried s1 = carried s2 ->
  snd (loop i s1) = snd (loop i s2) /\
  carried (tick s1 i) = carried (tick s2 i) /\
  enemyDetected (tick s1 i) = enemyDetected (tick s2 i).
Proof.
  intros H.
  destruct (sense_ignores_estimate i s1 s2 H) as [E D].
  destruct (dispatch_ignores_direction i (ulong (millis i)) _ _ E D)
    as [Ev Es].
  unfold tick, loop; split; [exact Ev|].
  revert Es.
  generalize (fst (dispatch i (ulong (millis i)) (sense i s1))).
  generalize (fst (dispatch i (ulong (millis i)) (sense i s2))).
  intros u2 u1 Es; split.
  - rewrite <- (carried_set_enemyDirection u1 0), Es.
    apply carried_set_enemyDirection.
  - rewrite <- (enemyDetected_set_enemyDirection u1 0), Es.
    apply enemyDetected_set_enemyDirection.
Qed.

(** A searching robot with clean globals and one whose flags and estimate
    are all set, on an iteration that finds nothing. *)
Lemma drive_ignores_stale_estimate_witness :
  snd (loop (calm 1000 0 0 0) (enter power_on STATE_SEARCH 0))
  = snd (loop (calm 1000 0 0 0)
           (mkRobot STATE_SEARCH true true true true true true
              999 999 999 0 0 0 0 999 true (-1))) /\
  carried (tick (enter power_on STATE_SEARCH 0) (calm 1000 0 0 0))
  = carried
      (tick (mkRobot STATE_SEARCH true true true true true true
               999 999 999 0 0 0 0 999 true (-1)) (calm 1000 0 0 0)) /\
  enemyDetected (tick (enter power_on STATE_SEARCH 0) (calm 1000 0 0 0))
  = enemyDetected
      (tick (mkRobot STATE_SEARCH true true true true true true
               999 999 999 0 0 0 0 999 true (-1)) (calm 1000 0 0 0)).
Proof.
  apply (drive_ignores_stale_estimate (calm 1000 0 0 0)
           (enter power_on STATE_SEARCH 0)
           (mkRobot STATE_SEARCH true true true true true true
              999 999 999 0 0 0 0 999 true (-1))).
  reflexivity.
Defined.

(** ** The stored distances *)

Lemma readUltrasonic_ok (distance : Z) : okDistance (readUltrasonic distance).
Proof.
  unfold okDistance, readUltrasonic.
  destruct (distance <? 2) eqn:E1; destruct (distance >? 400) eqn:E2;
    cbn; lia.
Qed.

(** What polling does to the stored distances and to the poll timers. *)
Lemma sense_poll (i : Inputs) (s : Robot) :
  let cm := ulong (millis i) in
  let front := ulong (cm - lastUltraFront s) >=? ULTRA_INTERVAL in
  let side := ulong (cm - lastUltraSide s) >=? ULTRA_SIDE_INTERVAL in
  distanceFront (sense i s)
  = (if front then readUltrasonic (cmFront i) else distanceFront s) /\
  distanceLeft (sense i s)
  = (if side then readUltrasonic (cmLeft i) else distanceLeft s) /\
  distanceRight (sense i s)
  = (if side then readUltrasonic (cmRight i) else distanceRight s) /\
  lastUltraFront (sense i s) = (if front then cm else lastUltraFront s) /\
  lastUltraSide (sense i s) = (if side then cm else lastUltraSide s).
Proof.
  cbv zeta; unfold sense; rewrite readUltrasonicSensors_polled.
  match goal with
  | |- context [updateEnemyStatus ?x] =>
      destruct (updateEnemyStatus_frame x)
        as (_ & _ & _ & _ & -> & -> & -> & _);
      assert (U : lastUltraFront (updateEnemyStatus x) = lastUltraFront x /\
                  lastUltraSide (updateEnemyStatus x) = lastUltraSide x)
        by (unfold updateEnemyStatus; cbv zeta; split_ifs; cbn; split;
            reflexivity);
      destruct U as [-> ->]
  end.
  pose proof (borderPriority_fields i s) as P; cbv zeta in P; rewrite P.
  unfold polled; cbn; repeat split.
Qed.

Lemma tick_poll (i : Inputs) (s : Robot) :
  distanceFront (tick s i) = distanceFront (sense i s) /\
  distanceLeft (tick s i) = distanceLeft (sense i s) /\
  distanceRight (tick s i) = distanceRight (sense i s) /\
  lastUltraFront (tick s i) = lastUltraFront (sense i s) /\
  lastUltraSide (tick s i) = lastUltraSide (sense i s).
Proof.
  destruct (dispatch_frame i (ulong (millis i)) (sense i s))
    as (A & B & C & _).
  destruct (dispatch_frame_border i (ulong (millis i)) (sense i s))
    as (_ & _ & _ & _ & _ & _ & D & E).
  unfold tick, loop; auto.
Qed.

Lemma dispatch_lastEnemyDistance (i : Inputs) (cm : Z) (v : Robot) :
  lastEnemyDistance (fst (dispatch i cm v)) = lastEnemyDistance v \/
  lastEnemyDistance (fst (dispatch i cm v)) = distanceFront v.
Proof.
  unfold dispatch, executeOpeningMove, executeSearch, executeAttack,
    executePush, executeBorderEscape; cbv zeta.
  destruct (currentState v); split_ifs; cbn; auto.
Qed.

Lemma tick_storedOk (i : Inputs) (s : Robot) :
  storedOk s -> storedOk (tick s i).
Proof.
  intros (F & L & R & E); unfold storedOk.
  destruct (tick_poll i s) as (-> & -> & -> & _).
  destruct (sense_poll i s) as (Pf & Pl & Pr & _); cbv zeta in *.
  assert (F' : okDistance (distanceFront (sense i s)))
    by (rewrite Pf; split_ifs; [apply readUltrasonic_ok | exact F]).
  assert (L' : okDistance (distanceLeft (sense i s)))
    by (rewrite Pl; split_ifs; [apply readUltrasonic_ok | exact L]).
  assert (R' : okDistance (distanceRight (sense i s)))
    by (rewrite Pr; split_ifs; [apply readUltrasonic_ok | exact R]).
  repeat split; try assumption.
  unfold tick, loop.
  destruct (dispatch_lastEnemyDistance i (ulong (millis i)) (sense i s))
    as [-> | ->]; [|exact F'].
  destruct (sense_frame i s) as (_ & _ & _ & -> & _); exact E.
Qed.

(** X5. The distance globals only ever hold a plausible measurement (2 to
    400 cm) or the invalid-reading mark 999.  If [distanceFront],
    [distanceLeft], [distanceRight] and [lastEnemyDistance] are such
    values, as they are at power-on, they are such values after every
    iteration of every run, whatever the sensors return; so the difference
    the push handler takes of two of them stays within 997 of zero. *)
Theorem stored_distances_stay_plausible (ticks : list Inputs) (s : Robot) :
  storedOk s ->
  Forall storedOk (history ticks s) /\
  Forall (fun r => -997 <= distanceFront r - lastEnemyDistance r <= 997)
    (history ticks s).
Proof.
  revert s; induction ticks as [|i rest IH]; intros s Hs; cbn.
  - split; constructor.
  - pose proof (tick_storedOk i s Hs) as Hs'.
    destruct (IH (tick s i) Hs') as [A B].
    split; constructor; try assumption.
    destruct Hs' as (F & _ & _ & E); unfold okDistance in F, E; lia.
Qed.

(** From power-on through readings of every kind: a time-out, a valid
    echo, an echo beyond range, an echo closer than the sensor can
    resolve, and a border hit. *)
Lemma stored_distances_stay_plausible_witness :
  Forall storedOk
    (history [calm 100 0 0 0; calm 300 25 450 1; calm 600 5000 (-3) 80;
              edge 900 800 0 0 0 0]
       (enter power_on STATE_ATTACK 0)) /\
  Forall (fun r => -997 <= distanceFront r - lastEnemyDistance r <= 997)
    (history [calm 100 0 0 0; calm 300 25 450 1; calm 600 5000 (-3) 80;
              edge 900 800 0 0 0 0]
       (enter power_on STATE_ATTACK 0)).
Proof.
  apply (stored_distances_stay_plausible
           [calm 100 0 0 0; calm 300 25 450 1; calm 600 5000 (-3) 80;
            edge 900 800 0 0 0 0]
           (enter power_on STATE_ATTACK 0)).
  unfold storedOk, okDistance; cbn; lia.
Defined.

Lemma ulong_small (z : Z) : 0 <= z < 2 ^ 32 -> ulong z = z.
Proof. intros H; unfold ulong; now apply Z.mod_small. Qed.

Lemma front_not_due (j : Inputs) (s : Robot) :
  0 <= lastUltraFront s ->
  lastUltraFront s <= millis j < lastUltraFront s + ULTRA_INTERVAL ->
  millis j < 2 ^ 32 ->
  distanceFront (tick s j) = distanceFront s /\
  lastUltraFront (tick s j) = lastUltraFront s.
Proof.
  intros H0 Hw Hm.
  destruct (tick_poll j s) as (-> & _ & _ & -> & _).
  destruct (sense_poll j s) as (-> & _ & _ & -> & _).
  rewrite (ulong_small (millis j)) by lia.
  rewrite (ulong_small (millis j - lastUltraFront s))
    by (unfold ULTRA_INTERVAL in Hw; lia).
  replace (millis j - lastUltraFront s >=? ULTRA_INTERVAL) with false by lia.
  split; reflexivity.
Qed.

Lemma side_not_due (j : Inputs) (s : Robot) :
  0 <= lastUltraSide s ->
  lastUltraSide s <= millis j < lastUltraSide s + ULTRA_SIDE_INTERVAL ->
  millis j < 2 ^ 32 ->
  distanceLeft (tick s j) = distanceLeft s /\
  distanceRight (tick s j) = distanceRight s /\
  lastUltraSide (tick s j) = lastUltraSide s.
Proof.
  intros H0 Hw Hm.
  destruct (tick_poll j s) as (_ & -> & -> & _ & ->).
  destruct (sense_poll j s) as (_ & -> & -> & _ & ->).
  rewrite (ulong_small (millis j)) by lia.
  rewrite (ulong_small (millis j - lastUltraSide s))
    by (unfold ULTRA_SIDE_INTERVAL in Hw; lia).
  replace (millis j - lastUltraSide s >=? ULTRA_SIDE_INTERVAL)
    with false by lia.
  repeat split.
Qed.

Lemma front_kept_over_run (L : Z) (mid : list Inputs) :
  0 <= L ->
  forall s : Robot,
    lastUltraFront s = L ->
    Forall (fun j => L <= millis j < L + ULTRA_INTERVAL /\
                     millis j < 2 ^ 32) mid ->
    distanceFront (run mid s) = distanceFront s /\
    lastUltraFront (run mid s) = L.
Proof.
  intros H0; induction mid as [|j rest IH]; intros s HL Hw.
  - cbn; auto.
  - inversion Hw as [|? ? [Hj Hm] Hw']; subst.
    destruct (front_not_due j s H0 Hj Hm) as [A B].
    destruct (IH (tick s j) B Hw') as [X Y].
    cbn [run fold_left]; fold (run rest (tick s j)).
    rewrite X, Y, A; auto.
Qed.

Lemma side_kept_over_run (L : Z) (mid : list Inputs) :
  0 <= L ->
  forall s : Robot,
    lastUltraSide s = L ->
    Forall (fun j => L <= millis j < L + ULTRA_SIDE_INTERVAL /\
                     millis j < 2 ^ 32) mid ->
    distanceLeft (run mid s) = distanceLeft s /\
    distanceRight (run mid s) = distanceRight s /\
    lastUltraSide (run mid s) = L.
Proof.
  intros H0; induction mid as [|j rest IH]; intros s HL Hw.
  - cbn; auto.
  - inversion Hw as [|? ? [Hj Hm] Hw']; subst.
    destruct (side_not_due j s H0 Hj Hm) as (A & B & C).
    destruct (IH (tick s j) C Hw') as (X & Y & Z0).
    cbn [run fold_left]; fold (run rest (tick s j)).
    rewrite X, Y, Z0, A, B; auto.
Qed.

(** X6. Front polls are spaced.  [lastUltraFront] holds the time [L] of the
    last front poll.  Over any run of iterations that all come less than
    [ULTRA_INTERVAL] = 50 ms after [L] (the clock not having wrapped), the
    stored front distance and [lastUltraFront] do not change, whatever the
    sensor would measure; the first iteration that comes 50 ms or more
    after [L] polls again: it stores what [readUltrasonic] returns for its
    own measurement and sets [lastUltraFront] to its own time. *)
Theorem front_polls_are_spaced
  (mid : list Inputs) (i2 : Inputs) (s : Robot) :
  let L := lastUltraFront s in
  0 <= L ->
  Forall (fun j => L <= millis j < L + ULTRA_INTERVAL /\
                   millis j < 2 ^ 32) mid ->
  L + ULTRA_INTERVAL <= millis i2 < 2 ^ 32 ->
  distanceFront (run mid s) = distanceFront s /\
  lastUltraFront (run mid s) = L /\
  distanceFront (tick (run mid s) i2) = readUltrasonic (cmFront i2) /\
  lastUltraFront (tick (run mid s) i2) = millis i2.
Proof.
  intros L H0 Hw H2; subst L.
  destruct (front_kept_over_run (lastUltraFront s) mid H0 s eq_refl Hw)
    as [A B].
  split; [exact A | split; [exact B|]].
  destruct (tick_poll i2 (run mid s)) as (-> & _ & _ & -> & _).
  destruct (sense_poll i2 (run mid s)) as (-> & _ & _ & -> & _).
  unfold ULTRA_INTERVAL in *.
  rewrite B, (ulong_small (millis i2)) by lia.
  rewrite (ulong_small (millis i2 - lastUltraFront s)) by lia.
  replace (millis i2 - lastUltraFront s >=? 50) with true by lia.
  split; reflexivity.
Qed.

(** A poll at 1000 ms finds a target 40 cm ahead.  The iterations at 1010
    and 1049 ms would measure 35 and 36 cm and are not polled; the one at
    1050 ms is polled and stores 41 cm. *)
Lemma front_polls_are_spaced_witness :
  distanceFront
    (run [calm 1010 35 20 70; calm 1049 36 20 70]
       (tick (enter power_on STATE_SEARCH 0) (calm 1000 40 90 0))) = 40 /\
  lastUltraFront
    (run [calm 1010 35 20 70; calm 1049 36 20 70]
       (tick (enter power_on STATE_SEARCH 0) (calm 1000 40 90 0))) = 1000 /\
  distanceFront
    (tick (run [calm 1010 35 20 70; calm 1049 36 20 70]
             (tick (enter power_on STATE_SEARCH 0) (calm 1000 40 90 0)))
       (calm 1050 41 20 70)) = 41 /\
  lastUltraFront
    (tick (run [calm 1010 35 20 70; calm 1049 36 20 70]
             (tick (enter power_on STATE_SEARCH 0) (calm 1000 40 90 0)))
       (calm 1050 41 20 70)) = 1050.
Proof.
  apply (front_polls_are_spaced [calm 1010 35 20 70; calm 1049 36 20 70]
           (calm 1050 41 20 70)
           (tick (enter power_on STATE_SEARCH 0) (calm 1000 40 90 0))).
  - vm_compute; discriminate.
  - repeat constructor; vm_compute; first [discriminate | reflexivity].
  - vm_compute; split; [discriminate | reflexivity].
Defined.

(** X18. Side polls are spaced.  [lastUltraSide] holds the time [L] of the
    last poll of the two side sensors.  Over any run of iterations that
    all come less than [ULTRA_SIDE_INTERVAL] = 200 ms after [L] (the clock
    not having wrapped), the stored left and right distances and
    [lastUltraSide] do not change, whatever the sensors would measure and
    however often the front sensor is polled meanwhile; the first
    iteration that comes 200 ms or more after [L] polls both again and
    sets [lastUltraSide] to its own time. *)
Theorem side_polls_are_spaced
  (mid : list Inputs) (i2 : Inputs) (s : Robot) :
  let L := lastUltraSide s in
  0 <= L ->
  Forall (fun j => L <= millis j < L + ULTRA_SIDE_INTERVAL /\
                   millis j < 2 ^ 32) mid ->
  L + ULTRA_SIDE_INTERVAL <= millis i2 < 2 ^ 32 ->
  distanceLeft (run mid s) = distanceLeft s /\
  distanceRight (run mid s) = distanceRight s /\
  lastUltraSide (run mid s) = L /\
  distanceLeft (tick (run mid s) i2) = readUltrasonic (cmLeft i2) /\
  distanceRight (tick (run mid s) i2) = readUltrasonic (cmRight i2) /\
  lastUltraSide (tick (run mid s) i2) = millis i2.
Proof.
  intros L H0 Hw H2; subst L.
  destruct (side_kept_over_run (lastUltraSide s) mid H0 s eq_refl Hw)
    as (A & B & C).
  split; [exact A | split; [exact B | split; [exact C|]]].
  destruct (tick_poll i2 (run mid s)) as (_ & -> & -> & _ & ->).
  destruct (sense_poll i2 (run mid s)) as (_ & -> & -> & _ & ->).
  unfold ULTRA_SIDE_INTERVAL in *.
  rewrite C, (ulong_small (millis i2)) by lia.
  rewrite (ulong_small (millis i2 - lastUltraSide s)) by lia.
  replace (millis i2 - lastUltraSide s >=? 200) with true by lia.
  repeat split.
Qed.

(** A poll at 1000 ms finds a target 90 cm to the left.  The iterations at
    1050, 1100 and 1199 ms, on two of which the front sensor is polled
    again, leave the side distances alone; the one at 1200 ms polls the
    side sensors and stores 20 and 70 cm. *)
Lemma side_polls_are_spaced_witness :
  distanceLeft
    (run [calm 1050 35 20 70; calm 1100 36 20 70; calm 1199 36 20 70]
       (tick (enter power_on STATE_SEARCH 0) (calm 1000 40 90 0))) = 90 /\
  distanceRight
    (run [calm 1050 35 20 70; calm 1100 36 20 70; calm 1199 36 20 70]
       (tick (enter power_on STATE_SEARCH 0) (calm 1000 40 90 0))) = 999 /\
  lastUltraSide
    (run [calm 1050 35 20 70; calm 1100 36 20 70; calm 1199 36 20 70]
       (tick (enter power_on STATE_SEARCH 0) (calm 1000 40 90 0))) = 1000 /\
  distanceLeft
    (tick (run [calm 1050 35 20 70; calm 1100 36 20 70; calm 1199 36 20 70]
             (tick (enter power_on STATE_SEARCH 0) (calm 1000 40 90 0)))
       (calm 1200 36 20 70)) = 20 /\
  distanceRight
    (tick (run [calm 1050 35 20 70; calm 1100 36 20 70; calm 1199 36 20 70]
             (tick (enter power_on STATE_SEARCH 0) (calm 1000 40 90 0)))
       (calm 1200 36 20 70)) = 70 /\
  lastUltraSide
    (tick (run [calm 1050 35 20 70; calm 1100 36 20 70; calm 1199 36 20 70]
             (tick (enter power_on STATE_SEARCH 0) (calm 1000 40 90 0)))
       (calm 1200 36 20 70)) = 1200.
Proof.
  apply (side_polls_are_spaced
           [calm 1050 35 20 70; calm 1100 36 20 70; calm 1199 36 20 70]
           (calm 1200 36 20 70)
           (tick (enter power_on STATE_SEARCH 0) (calm 1000 40 90 0))).
  - vm_compute; discriminate.
  - repeat constructor; vm_compute; first [discriminate | reflexivity].
  - vm_compute; split; [discriminate | reflexivity].
Defined.

(** ** The search and push handlers *)

Lemma sense_estimate_spec (i : Inputs) (s : Robot) :
  let v := sense i s in
  let f := inBand (distanceFront v) in
  let l := inBand (distanceLeft v) in
  let r := inBand (distanceRight v) in
  enemyDetected v = f || l || r /\
  (f || l || r = true ->
   enemyDirection v
   = if f then 0
     else if l && (negb r || (distanceLeft v <? distanceRight v)) then -1
     else 1).
Proof.
  cbv zeta.
  destruct (sense_estimate i s) as (x & Ex & Hf & Hl & Hr & _).
  destruct (updateEnemyStatus_spec x) as [Hd Hdir]; cbv zeta in *.
  rewrite <- Ex in Hd, Hdir; rewrite Hf, Hl, Hr in Hd, Hdir.
  split; [exact Hd|].
  rewrite Hdir.
  destruct (inBand (distanceFront (sense i s))),
    (inBand (distanceLeft (sense i s))),
    (inBand (distanceRight (sense i s))),
    (distanceLeft (sense i s) <? distanceRight (sense i s));
    cbn; intros H; try reflexivity; discriminate H.
Qed.

(** X7. The search handler.  On an iteration in [STATE_SEARCH] with no
    border flag set, with the distances as stored once the sensors have
    been polled: if the front distance is in the target band 10..150 cm
    the state becomes [STATE_ATTACK] and no drive command is issued; else
    if a flank distance is in the band the robot turns toward that flank
    at [SPEED_SEARCH] (toward the left one if it is the only one or the
    nearer one, otherwise toward the right one), waits 200 ms and the
    state becomes [STATE_ATTACK]; if no distance is in the band the robot
    keeps rotating clockwise at [SPEED_SEARCH] and stays in
    [STATE_SEARCH].  [stateStartTime] is set to the time of the iteration
    exactly when the state changes. *)
Theorem search_rule (i : Inputs) (s : Robot) :
  let v := sense i s in
  let f := inBand (distanceFront v) in
  let l := inBand (distanceLeft v) in
  let r := inBand (distanceRight v) in
  currentState s = STATE_SEARCH ->
  noBorder i = true ->
  currentState (tick s i)
  = (if f || l || r then STATE_ATTACK else STATE_SEARCH) /\
  stateStartTime (tick s i)
  = (if f || l || r then ulong (millis i) else stateStartTime s) /\
  snd (loop i s)
  = (if f then []
     else if l && (negb r || (distanceLeft v <? distanceRight v)) then
       rotateCounterClockwise SPEED_SEARCH ++ [Delay 200]
     else if r then rotateClockwise SPEED_SEARCH ++ [Delay 200]
     else rotateClockwise SPEED_SEARCH).
Proof.
  intros v f l r Hs Hn; subst v f l r.
  destruct (sense_noBorder i s Hn) as (Hc & Ht & _).
  destruct (sense_estimate_spec i s) as [Hd Hdir]; cbv zeta in *.
  unfold tick, loop, dispatch; rewrite Hc, Hs.
  unfold executeSearch; rewrite Hd.
  destruct (inBand (distanceFront (sense i s))
            || inBand (distanceLeft (sense i s))
            || inBand (distanceRight (sense i s))) eqn:E.
  - rewrite (Hdir eq_refl).
    destruct (inBand (distanceFront (sense i s))),
      (inBand (distanceLeft (sense i s))),
      (inBand (distanceRight (sense i s))),
      (distanceLeft (sense i s) <? distanceRight (sense i s));
      cbn in E |- *; try discriminate E; repeat split.
  - apply orb_false_iff in E; destruct E as [E Er].
    apply orb_false_iff in E; destruct E as [Ef El].
    rewrite Ef, El, Er; cbn; rewrite Hc, Hs, Ht; repeat split.
Qed.

(** A target ahead, one on each flank with the left one nearer, one on
    the right only, and none. *)
Lemma search_rule_witness :
  (currentState (tick (enter power_on STATE_SEARCH 0) (calm 1000 100 0 0))
   = STATE_ATTACK /\
   stateStartTime (tick (enter power_on STATE_SEARCH 0) (calm 1000 100 0 0))
   = 1000 /\
   snd (loop (calm 1000 100 0 0) (enter power_on STATE_SEARCH 0)) = []) /\
  (currentState (tick (enter power_on STATE_SEARCH 0) (calm 1000 0 40 70))
   = STATE_ATTACK /\
   stateStartTime (tick (enter power_on STATE_SEARCH 0) (calm 1000 0 40 70))
   = 1000 /\
   snd (loop (calm 1000 0 40 70) (enter power_on STATE_SEARCH 0))
   = rotateCounterClockwise 180 ++ [Delay 200]) /\
  (currentState (tick (enter power_on STATE_SEARCH 0) (calm 1000 0 0 70))
   = STATE_ATTACK /\
   stateStartTime (tick (enter power_on STATE_SEARCH 0) (calm 1000 0 0 70))
   = 1000 /\
   snd (loop (calm 1000 0 0 70) (enter power_on STATE_SEARCH 0))
   = rotateClockwise 180 ++ [Delay 200]) /\
  (currentState (tick (enter power_on STATE_SEARCH 0) (calm 1000 0 0 0))
   = STATE_SEARCH /\
   stateStartTime (tick (enter power_on STATE_SEARCH 0) (calm 1000 0 0 0))
   = 0 /\
   snd (loop (calm 1000 0 0 0) (enter power_on STATE_SEARCH 0))
   = rotateClockwise 180).
Proof.
  split; [|split; [|split]].
  - apply (search_rule (calm 1000 100 0 0) (enter power_on STATE_SEARCH 0));
      reflexivity.
  - apply (search_rule (calm 1000 0 40 70) (enter power_on STATE_SEARCH 0));
      reflexivity.
  - apply (search_rule (calm 1000 0 0 70) (enter power_on STATE_SEARCH 0));
      reflexivity.
  - apply (search_rule (calm 1000 0 0 0) (enter power_on STATE_SEARCH 0));
      reflexivity.
Defined.

Lemma push_tick (i : Inputs) (s : Robot) :
  let v := sense i s in
  let d := distanceFront v in
  let stuck :=
    (elapsedSince (pushStartTime s) i >? DEADLOCK_TIME)
    && (Z.abs (d - lastEnemyDistance s) <? 5) in
  currentState s = STATE_PUSH ->
  noBorder i = true ->
  currentState (tick s i)
  = (if stuck then STATE_ATTACK
     else if targetLost v then STATE_SEARCH else STATE_PUSH) /\
  lastEnemyDistance (tick s i)
  = (if stuck then lastEnemyDistance s else d) /\
  snd (loop i s)
  = (if stuck then recovery
     else if targetLost v then [] else moveForward SPEED_PUSH).
Proof.
  intros v d stuck Hs Hn; subst v d stuck.
  destruct (sense_noBorder i s Hn) as (Hc & _).
  destruct (sense_frame i s) as (_ & _ & Hp & Hl & _).
  unfold tick, loop, dispatch; rewrite Hc, Hs.
  unfold executePush, elapsedSince, targetLost; cbv zeta.
  rewrite Hp, Hl.
  destruct (ulong (ulong (millis i) - pushStartTime s) >? DEADLOCK_TIME);
    destruct (Z.abs (distanceFront (sense i s) - lastEnemyDistance s) <? 5);
    cbn [andb fst snd]; try (cbn; rewrite ?Hl; repeat split; fail);
    cbn;
    destruct (negb (enemyDetected (sense i s))
              || (distanceFront (sense i s) >? ENEMY_LOST));
    cbn; rewrite ?Hc, ?Hs; repeat split.
Qed.

(** X8. The push handler.  On an iteration in [STATE_PUSH] with no border
    flag set, with [d] the front distance as stored once the sensor has
    been polled: if more than [DEADLOCK_TIME] = 2000 ms have passed since
    [pushStartTime] and [d] is within 5 cm of [lastEnemyDistance], the
    robot drives the recovery sequence and the state becomes
    [STATE_ATTACK], [lastEnemyDistance] being kept; this test comes first,
    so it wins even when the target is lost.  Otherwise
    [lastEnemyDistance] becomes [d], and the state becomes [STATE_SEARCH]
    without a drive command if the target is lost (no sensor has it, or
    [d] is beyond [ENEMY_LOST] = 50 cm) and stays [STATE_PUSH] with both
    wheels forward at [SPEED_PUSH] if it is not. *)
Theorem push_rule (i : Inputs) (s : Robot) :
  let v := sense i s in
  let d := distanceFront v in
  let stuck :=
    (elapsedSince (pushStartTime s) i >? DEADLOCK_TIME)
    && (Z.abs (d - lastEnemyDistance s) <? 5) in
  currentState s = STATE_PUSH ->
  noBorder i = true ->
  currentState (tick s i)
  = (if stuck then STATE_ATTACK
     else if targetLost v then STATE_SEARCH else STATE_PUSH) /\
  lastEnemyDistance (tick s i)
  = (if stuck then lastEnemyDistance s else d) /\
  snd (loop i s)
  = (if stuck then recovery
     else if targetLost v then [] else moveForward SPEED_PUSH).
Proof. exact (push_tick i s). Qed.

(** A push begun at 0 ms: the target held at 20 cm, the target gone, and,
    past the window with 999 still recorded as the last distance, the
    target gone again: the recovery runs although there is no target. *)
Lemma push_rule_witness :
  (currentState (tick (enter power_on STATE_PUSH 0) (calm 100 20 0 0))
   = STATE_PUSH /\
   lastEnemyDistance (tick (enter power_on STATE_PUSH 0) (calm 100 20 0 0))
   = 20 /\
   snd (loop (calm 100 20 0 0) (enter power_on STATE_PUSH 0))
   = moveForward 255) /\
  (currentState (tick (enter power_on STATE_PUSH 0) (calm 100 0 0 0))
   = STATE_SEARCH /\
   lastEnemyDistance (tick (enter power_on STATE_PUSH 0) (calm 100 0 0 0))
   = 999 /\
   snd (loop (calm 100 0 0 0) (enter power_on STATE_PUSH 0)) = []) /\
  (currentState (tick (enter power_on STATE_PUSH 0) (calm 2500 0 0 0))
   = STATE_ATTACK /\
   lastEnemyDistance (tick (enter power_on STATE_PUSH 0) (calm 2500 0 0 0))
   = 999 /\
   snd (loop (calm 2500 0 0 0) (enter power_on STATE_PUSH 0)) = recovery).
Proof.
  split; [|split].
  - apply (push_rule (calm 100 20 0 0) (enter power_on STATE_PUSH 0));
      reflexivity.
  - apply (push_rule (calm 100 0 0 0) (enter power_on STATE_PUSH 0));
      reflexivity.
  - apply (push_rule (calm 2500 0 0 0) (enter power_on STATE_PUSH 0));
      reflexivity.
Defined.

(** X9. One missed echo ends a push.  On an iteration in [STATE_PUSH] with
    no border flag set on which the front sensor is polled and returns an
    invalid measurement (a time-out, less than 2 cm or more than 400 cm),
    the stored front distance becomes 999 and, unless the deadlock test
    fires (which needs more than 2000 ms of push and a last recorded
    distance above 994), the state becomes [STATE_SEARCH] with no drive
    command, whatever the flank sensors report and whatever front distance
    was stored before. *)
Theorem missed_echo_ends_push (i : Inputs) (s : Robot) :
  currentState s = STATE_PUSH ->
  noBorder i = true ->
  ULTRA_INTERVAL <= ulong (ulong (millis i) - lastUltraFront s) ->
  cmFront i < 2 \/ 400 < cmFront i ->
  elapsedSince (pushStartTime s) i <= DEADLOCK_TIME \/
  lastEnemyDistance s <= 994 ->
  distanceFront (tick s i) = 999 /\
  currentState (tick s i) = STATE_SEARCH /\
  snd (loop i s) = [].
Proof.
  intros Hs Hn Hdue Hbad Hno.
  destruct (tick_poll i s) as (-> & _).
  destruct (push_tick i s Hs Hn) as (A & _ & C); cbv zeta in *.
  destruct (sense_poll i s) as (Pf & _); cbv zeta in Pf.
  replace (ulong (ulong (millis i) - lastUltraFront s) >=? ULTRA_INTERVAL)
    with true in Pf by lia.
  rewrite (readUltrasonic_invalid _ Hbad) in Pf.
  rewrite A, C; unfold targetLost; rewrite Pf.
  replace ((elapsedSince (pushStartTime s) i >? DEADLOCK_TIME)
           && (Z.abs (999 - lastEnemyDistance s) <? 5)) with false
    by (symmetry; apply andb_false_iff; lia).
  replace (999 >? ENEMY_LOST) with true by reflexivity.
  rewrite orb_true_r; repeat split.
Qed.

(** A robot pushing a target it holds at 20 cm, with another target 60 cm
    to its left, loses one front echo 500 ms into the push. *)
Lemma missed_echo_ends_push_witness :
  distanceFront
    (tick (set_lastEnemyDistance
             (set_distanceFront (enter power_on STATE_PUSH 0) 20) 20)
       (calm 500 0 60 0)) = 999 /\
  currentState
    (tick (set_lastEnemyDistance
             (set_distanceFront (enter power_on STATE_PUSH 0) 20) 20)
       (calm 500 0 60 0)) = STATE_SEARCH /\
  snd (loop (calm 500 0 60 0)
         (set_lastEnemyDistance
            (set_distanceFront (enter power_on STATE_PUSH 0) 20) 20)) = [].
Proof.
  apply (missed_echo_ends_push (calm 500 0 60 0)
           (set_lastEnemyDistance
              (set_distanceFront (enter power_on STATE_PUSH 0) 20) 20)).
  - reflexivity.
  - reflexivity.
  - vm_compute; discriminate.
  - left; cbn; lia.
  - right; cbn; lia.
Defined.

(** ** The opening move *)

Lemma opening_tick (i : Inputs) (s : Robot) :
  let e := elapsedSince (stateStartTime s) i in
  currentState s = STATE_OPENING_MOVE ->
  noBorder i = true ->
  currentState (tick s i)
  = (if e <? OPENING_SPIN_TIME + OPENING_CHARGE_TIME
     then STATE_OPENING_MOVE else STATE_SEARCH) /\
  stateStartTime (tick s i)
  = (if e <? OPENING_SPIN_TIME + OPENING_CHARGE_TIME
     then stateStartTime s else ulong (millis i)) /\
  snd (loop i s)
  = (if e <? OPENING_SPIN_TIME then rotateClockwise SPEED_MAX
     else if e <? OPENING_SPIN_TIME + OPENING_CHARGE_TIME
          then moveForward SPEED_MAX
     else []).
Proof.
  intros e Hs Hn; subst e.
  destruct (sense_noBorder i s Hn) as (Hc & Ht & _).
  unfold tick, loop, dispatch; rewrite Hc, Hs.
  unfold executeOpeningMove, elapsedSince; cbv zeta; rewrite Ht.
  unfold OPENING_SPIN_TIME, OPENING_CHARGE_TIME.
  destruct (ulong (ulong (millis i) - stateStartTime s) <? 500) eqn:A;
    destruct (ulong (ulong (millis i) - stateStartTime s) <? 500 + 800)
      eqn:B; try lia; cbn; rewrite ?Hc, ?Hs, ?Ht; repeat split.
Qed.

Lemma opening_run (T : Z) (ticks : list Inputs) :
  forall s : Robot,
    currentState s = STATE_OPENING_MOVE ->
    stateStartTime s = T ->
    Forall (fun j => noBorder j = true) ticks ->
    Forall (fun j => elapsedSince T j
                     < OPENING_SPIN_TIME + OPENING_CHARGE_TIME) ticks ->
    trace ticks s
    = map (fun j => (STATE_OPENING_MOVE,
                     if elapsedSince T j <? OPENING_SPIN_TIME
                     then rotateClockwise SPEED_MAX
                     else moveForward SPEED_MAX)) ticks /\
    currentState (run ticks s) = STATE_OPENING_MOVE /\
    stateStartTime (run ticks s) = T.
Proof.
  induction ticks as [|j rest IH]; intros s Hs HT Hn He.
  - cbn; auto.
  - inversion Hn as [|? ? Hj Hn']; subst.
    inversion He as [|? ? Hej He']; subst.
    destruct (opening_tick j s Hs Hj) as (A & B & C); cbv zeta in *.
    replace (elapsedSince (stateStartTime s) j
             <? OPENING_SPIN_TIME + OPENING_CHARGE_TIME) with true
      in A, B, C by lia.
    destruct (IH (tick s j) A B Hn' He') as (X & Y & Z0).
    cbn [trace map run fold_left]; rewrite A, C, X.
    repeat split; assumption.
Qed.

(** X10. The opening move after [setup()].  [setup()] leaves the robot in
    [STATE_OPENING_MOVE], entered at the time [T] it returns.  As long as
    no border flag is set, every iteration less than 500 ms after [T]
    rotates clockwise at [SPEED_MAX], every iteration from 500 ms to less
    than 1300 ms after [T] drives both wheels forward at [SPEED_MAX], the
    state staying [STATE_OPENING_MOVE]; the first iteration 1300 ms or
    more after [T] issues no drive command and enters [STATE_SEARCH],
    time-stamped with its own time.  What the border sensors read during
    [setup()] plays no part. *)
Theorem opening_move_after_setup
  (i0 : Inputs) (ticks : list Inputs) (i : Inputs) :
  let s0 := fst (setup i0) in
  let T := ulong (millis i0) in
  Forall (fun j => noBorder j = true) (ticks ++ [i]) ->
  Forall (fun j => elapsedSince T j
                   < OPENING_SPIN_TIME + OPENING_CHARGE_TIME) ticks ->
  OPENING_SPIN_TIME + OPENING_CHARGE_TIME <= elapsedSince T i ->
  trace ticks s0
  = map (fun j => (STATE_OPENING_MOVE,
                   if elapsedSince T j <? OPENING_SPIN_TIME
                   then rotateClockwise SPEED_MAX
                   else moveForward SPEED_MAX)) ticks /\
  currentState (tick (run ticks s0) i) = STATE_SEARCH /\
  stateStartTime (tick (run ticks s0) i) = ulong (millis i) /\
  snd (loop i (run ticks s0)) = [].
Proof.
  intros s0 T Hn He Hi; subst s0 T.
  apply Forall_app in Hn; destruct Hn as [Hn Hlast].
  inversion Hlast as [|? ? Hni _]; subst.
  destruct (opening_run (ulong (millis i0)) ticks (fst (setup i0))
              eq_refl eq_refl Hn He) as (A & B & C).
  split; [exact A|].
  destruct (opening_tick i _ B Hni) as (X & Y & Z0); cbv zeta in *.
  rewrite C in X, Y, Z0.
  replace (elapsedSince (ulong (millis i0)) i
           <? OPENING_SPIN_TIME + OPENING_CHARGE_TIME) with false
    in X, Y, Z0 by lia.
  replace (elapsedSince (ulong (millis i0)) i <? OPENING_SPIN_TIME)
    with false in Z0 by (unfold OPENING_SPIN_TIME, OPENING_CHARGE_TIME in *; lia).
  auto.
Qed.

(** [setup()] returns at 5200 ms with the back sensor on the line; the
    loop then runs at 5300, 5699, 5700 and 6499 ms, and at 6500 ms. *)
Lemma opening_move_after_setup_witness :
  trace [calm 5300 0 0 0; calm 5699 0 0 0; calm 5700 0 0 0; calm 6499 0 0 0]
    (fst (setup (edge 5200 0 0 0 0 800)))
  = [(STATE_OPENING_MOVE, rotateClockwise 255);
     (STATE_OPENING_MOVE, rotateClockwise 255);
     (STATE_OPENING_MOVE, moveForward 255);
     (STATE_OPENING_MOVE, moveForward 255)] /\
  currentState
    (tick (run [calm 5300 0 0 0; calm 5699 0 0 0; calm 5700 0 0 0;
                calm 6499 0 0 0]
             (fst (setup (edge 5200 0 0 0 0 800))))
       (calm 6500 0 0 0)) = STATE_SEARCH /\
  stateStartTime
    (tick (run [calm 5300 0 0 0; calm 5699 0 0 0; calm 5700 0 0 0;
                calm 6499 0 0 0]
             (fst (setup (edge 5200 0 0 0 0 800))))
       (calm 6500 0 0 0)) = 6500 /\
  snd (loop (calm 6500 0 0 0)
         (run [calm 5300 0 0 0; calm 5699 0 0 0; calm 5700 0 0 0;
               calm 6499 0 0 0]
            (fst (setup (edge 5200 0 0 0 0 800))))) = [].
Proof.
  apply (opening_move_after_setup (edge 5200 0 0 0 0 800)
           [calm 5300 0 0 0; calm 5699 0 0 0; calm 5700 0 0 0;
            calm 6499 0 0 0]
           (calm 6500 0 0 0)).
  - repeat constructor.
  - repeat constructor; vm_compute; reflexivity.
  - vm_compute; discriminate.
Defined.

(** ** Time spent in [delay()] *)

Lemma dispatch_blocked (i : Inputs) (cm : Z) (v : Robot) :
  0 <= blocked (snd (dispatch i cm v))
  <= match currentState v with
     | STATE_SEARCH => 200
     | STATE_PUSH => 600
     | _ => 0
     end.
Proof.
  unfold dispatch, executeOpeningMove, executeSearch, executeAttack,
    executePush, executeBorderEscape; cbv zeta.
  destruct (currentState v); split_ifs; cbn [snd]; vm_compute;
    split; discriminate.
Qed.

(** X11. The time an iteration spends in [delay()].  An iteration on which
    a border flag is set never waits.  One on which none is set waits at
    most 200 ms if it starts in [STATE_SEARCH] (the turn toward a flank
    target), at most 600 ms if it starts in [STATE_PUSH] (the recovery
    sequence), and not at all in any other state; so the border sensors
    are read again at most 600 ms of waiting later. *)
Theorem delay_budget (i : Inputs) (s : Robot) :
  0 <= blocked (snd (loop i s))
  <= (if noBorder i
      then match currentState s with
           | STATE_SEARCH => 200
           | STATE_PUSH => 600
           | _ => 0
           end
      else 0).
Proof.
  pose proof (dispatch_blocked i (ulong (millis i)) (sense i s)) as D.
  unfold loop.
  destruct (sense_state_cases i s) as [Hb | (Hn & Hc & _)].
  - rewrite Hb in D.
    destruct (noBorder i); [|exact D].
    destruct (currentState s); lia.
  - rewrite Hn; rewrite Hc in D; exact D.
Qed.

(** ** An escape that does not clear *)

Lemma front_escape_tick (j : Inputs) (s : Robot) :
  currentState s = STATE_BORDER_ESCAPE ->
  0 <= stateStartTime s ->
  stateStartTime s + BORDER_REVERSE_TIME <= millis j < 2 ^ 32 ->
  frontLine j = true ->
  (snd (loop j s) = rotateClockwise SPEED_MAX \/
   snd (loop j s) = rotateCounterClockwise SPEED_MAX \/
   snd (loop j s) = []) /\
  currentState (tick s j) = STATE_BORDER_ESCAPE /\
  0 <= stateStartTime (tick s j) /\
  stateStartTime (tick s j) + BORDER_REVERSE_TIME <= millis j.
Proof.
  intros Hs H0 Hm Hf.
  unfold BORDER_REVERSE_TIME in *.
  destruct (sense_frame j s)
    as (Hc & Ht & _ & _ & Hfr & Hfl & _ & _ & _ & Hd).
  assert (P : borderPriority (ulong (millis j)) (readAllIRSensors j s)
              = readAllIRSensors j s).
  { unfold borderPriority; cbn; rewrite Hs; cbn.
    now rewrite andb_false_r. }
  rewrite P in Hc, Ht; cbn in Hc, Ht; rewrite Hs in Hc.
  assert (Hn : noBorder j = false).
  { unfold noBorder; unfold frontLine in Hf.
    apply negb_false_iff.
    destruct (analogFR j >? IR_THRESHOLD), (analogFL j >? IR_THRESHOLD);
      try discriminate Hf; reflexivity. }
  rewrite Hn in Hd; cbn in Hd.
  assert (Hz : borderFrontRight (sense j s) || borderFrontLeft (sense j s)
               = true) by (rewrite Hfr, Hfl; exact Hf).
  assert (He : ulong (ulong (millis j) - stateStartTime (sense j s))
               = millis j - stateStartTime s).
  { rewrite Ht, (ulong_small (millis j)) by lia.
    apply ulong_small; lia. }
  unfold tick, loop, dispatch; rewrite Hc.
  unfold executeBorderEscape; cbv zeta.
  rewrite Hz, He, Hd; unfold BORDER_REVERSE_TIME, BORDER_TURN_TIME.
  replace (millis j - stateStartTime s <? 300) with false by lia.
  destruct (millis j - stateStartTime s <? 300 + 400) eqn:E.
  - assert (R : forall ev : list Event,
               ev = rotateClockwise SPEED_MAX \/
               ev = rotateCounterClockwise SPEED_MAX ->
               (ev = rotateClockwise SPEED_MAX \/
                ev = rotateCounterClockwise SPEED_MAX \/ ev = []) /\
               currentState (sense j s) = STATE_BORDER_ESCAPE /\
               0 <= stateStartTime (sense j s) /\
               stateStartTime (sense j s) + 300 <= millis j)
      by (intros ev [-> | ->]; rewrite Ht; repeat split; auto; lia).
    split_ifs; cbn [fst snd]; apply R; auto.
  - cbn; rewrite Hc, (ulong_small (millis j)) by lia.
    rewrite ulong_small by lia.
    repeat split; auto; lia.
Qed.

Lemma front_escape_run (ticks : list Inputs) :
  forall (t0 : Z) (s : Robot),
    currentState s = STATE_BORDER_ESCAPE ->
    0 <= stateStartTime s ->
    stateStartTime s + BORDER_REVERSE_TIME <= t0 ->
    ascending t0 ticks ->
    Forall (fun j => frontLine j = true) ticks ->
    Forall (fun ev => ev = rotateClockwise SPEED_MAX \/
                      ev = rotateCounterClockwise SPEED_MAX \/ ev = [])
      (map snd (trace ticks s)) /\
    currentState (run ticks s) = STATE_BORDER_ESCAPE.
Proof.
  induction ticks as [|j rest IH]; intros t0 s Hs H0 Ht Ha Hf.
  - cbn; split; [constructor | exact Hs].
  - destruct Ha as [Hj Ha]; inversion Hf as [|? ? Hfj Hf']; subst.
    destruct (front_escape_tick j s Hs H0) as (A & B & C & D);
      [lia | exact Hfj |].
    destruct (IH (millis j) (tick s j) B C D Ha Hf') as [X Y].
    cbn [trace map snd run fold_left]; split; [|exact Y].
    constructor; assumption.
Qed.

(** X12. A front-zone escape that does not clear only rotates.  The robot
    is in [STATE_BORDER_ESCAPE]; the reverse phase of its maneuver is over
    (at least [BORDER_REVERSE_TIME] = 300 ms have passed since
    [stateStartTime]); on every later iteration a front border sensor is
    still above the threshold, and the clock neither runs backwards nor
    wraps.  Then every iteration either rotates at [SPEED_MAX], clockwise
    or counter-clockwise, or issues no drive command (when it restarts the
    timer): the robot never backs away from the line again, and the state
    stays [STATE_BORDER_ESCAPE]. *)
Theorem front_escape_only_rotates (ticks : list Inputs) (s : Robot) :
  currentState s = STATE_BORDER_ESCAPE ->
  0 <= stateStartTime s ->
  ascending (stateStartTime s + BORDER_REVERSE_TIME) ticks ->
  Forall (fun j => frontLine j = true) ticks ->
  Forall (fun ev => ev = rotateClockwise SPEED_MAX \/
                    ev = rotateCounterClockwise SPEED_MAX \/ ev = [])
    (map snd (trace ticks s)) /\
  currentState (run ticks s) = STATE_BORDER_ESCAPE.
Proof.
  intros Hs H0 Ha Hf.
  apply (front_escape_run ticks (stateStartTime s + BORDER_REVERSE_TIME) s);
    try assumption; lia.
Qed.

(** An escape begun at 1000 ms with the front-right sensor on the line,
    followed from 1300 ms to 2500 ms: the turn, a restart at 1700 ms, the
    turn again, a second restart at 2100 ms, the turn again. *)
Lemma front_escape_only_rotates_witness :
  Forall (fun ev => ev = rotateClockwise SPEED_MAX \/
                    ev = rotateCounterClockwise SPEED_MAX \/ ev = [])
    (map snd
       (trace [edge 1300 800 0 0 0 0; edge 1699 800 0 0 0 0;
               edge 1700 800 0 0 0 0; edge 1900 800 0 0 0 0;
               edge 2100 800 0 0 0 0; edge 2500 800 0 0 0 0]
          (enter power_on STATE_BORDER_ESCAPE 1000))) /\
  currentState
    (run [edge 1300 800 0 0 0 0; edge 1699 800 0 0 0 0;
          edge 1700 800 0 0 0 0; edge 1900 800 0 0 0 0;
          edge 2100 800 0 0 0 0; edge 2500 800 0 0 0 0]
       (enter power_on STATE_BORDER_ESCAPE 1000)) = STATE_BORDER_ESCAPE.
Proof.
  apply (front_escape_only_rotates
           [edge 1300 800 0 0 0 0; edge 1699 800 0 0 0 0;
            edge 1700 800 0 0 0 0; edge 1900 800 0 0 0 0;
            edge 2100 800 0 0 0 0; edge 2500 800 0 0 0 0]
           (enter power_on STATE_BORDER_ESCAPE 1000)).
  - reflexivity.
  - cbn; lia.
  - cbn; lia.
  - repeat constructor.
Defined.

(** ** The two channels of a wheel *)

(** X13. No wheel is left driven both ways.  If, before an iteration of
    the loop, neither wheel has both its forward and its backward channel
    at a non-zero duty, the same holds once the iteration has made all its
    writes, whatever the state and the inputs. *)
Theorem wheels_exclusive_after_iteration
  (i : Inputs) (s : Robot) (c : Channels) :
  exclusive c -> exclusive (drive (snd (loop i s)) c).
Proof.
  intros H; unfold loop.
  generalize (sense i s) as v; intros v.
  unfold dispatch, executeOpeningMove, executeSearch, executeAttack,
    executePush, executeBorderEscape; cbv zeta.
  destruct (currentState v); split_ifs; cbn [snd];
    first [ exact H | vm_compute; auto ].
Qed.

(** The channels as [moveBackward(255)] leaves them, then an iteration of
    the push handler. *)
Lemma wheels_exclusive_after_iteration_witness :
  exclusive
    (drive (snd (loop (calm 100 20 0 0) (enter power_on STATE_PUSH 0)))
       (mkChannels 0 255 0 255)).
Proof.
  apply (wheels_exclusive_after_iteration (calm 100 20 0 0)
           (enter power_on STATE_PUSH 0) (mkChannels 0 255 0 255)).
  split; left; reflexivity.
Defined.

(** X14. A wheel that turns from backward to forward is driven both ways
    in between.  [setMotors] writes the forward channel of a wheel before
    its backward channel.  So when it is asked for a forward speed on a
    wheel whose backward channel is at a non-zero duty, there is a point
    among its four writes at which that wheel has both channels at a
    non-zero duty; this is what happens to the left wheel when the
    recovery sequence goes from [moveBackward] to [rotateClockwise]. *)
Theorem reversing_wheel_overlaps (leftSpeed rightSpeed : Z) (c : Channels) :
  (0 < leftSpeed /\ leftBack c <> 0) \/
  (0 < rightSpeed /\ rightBack c <> 0) ->
  exists n : nat,
    ~ exclusive (drive (firstn n (setMotors leftSpeed rightSpeed)) c).
Proof.
  intros [[Hl Hc] | [Hr Hc]]; rewrite setMotors_closed_form.
  - exists 1%nat; cbn; unfold exclusive; cbn; lia.
  - exists 3%nat; cbn; unfold exclusive; cbn; lia.
Qed.

(** The step of the recovery sequence from [moveBackward(255)] to
    [rotateClockwise(255)]. *)
Lemma reversing_wheel_overlaps_witness :
  exists n : nat,
    ~ exclusive
        (drive (firstn n (setMotors 255 (-255)))
           (drive (moveBackward 255) (mkChannels 0 0 0 0))).
Proof.
  apply (reversing_wheel_overlaps 255 (-255)
           (drive (moveBackward 255) (mkChannels 0 0 0 0))).
  left; split; [reflexivity | discriminate].
Defined.

(** ** The attack handler, complete *)

(** X15. The attack handler.  On an iteration in [STATE_ATTACK] with no
    border flag set, with [d] the stored front distance: the handler gives
    the target up, entering [STATE_SEARCH] without a drive command,
    exactly when the target is lost on this iteration (no sensor has it, or
    [d] is beyond 50 cm) and more than 1000 ms have passed since
    [stateStartTime], that is since the attack began: how long the target
    has been lost is measured nowhere.  Otherwise the state becomes
    [STATE_PUSH] without a drive command if [d <= 30] and stays
    [STATE_ATTACK] with an arc if not.  [stateStartTime] is set to the
    time of the iteration exactly when the state changes. *)
Theorem attack_rule (i : Inputs) (s : Robot) :
  let v := sense i s in
  let d := distanceFront v in
  let giveUp :=
    targetLost v && (elapsedSince (stateStartTime s) i >? 1000) in
  currentState s = STATE_ATTACK ->
  noBorder i = true ->
  currentState (tick s i)
  = (if giveUp then STATE_SEARCH
     else if d <=? ENEMY_CLOSE then STATE_PUSH else STATE_ATTACK) /\
  stateStartTime (tick s i)
  = (if giveUp || (d <=? ENEMY_CLOSE) then ulong (millis i)
     else stateStartTime s) /\
  snd (loop i s)
  = (if giveUp || (d <=? ENEMY_CLOSE) then []
     else if d >? ENEMY_MEDIUM then setMotors SPEED_ARC_INNER SPEED_ARC_OUTER
     else setMotors SPEED_CLOSE_INNER SPEED_CLOSE_OUTER).
Proof.
  intros v d giveUp Hs Hn; subst v d giveUp.
  destruct (attack_tick i s Hs Hn) as [E Ht].
  destruct (sense_noBorder i s Hn) as (Hc & _).
  unfold tick; rewrite E.
  unfold executeAttack, targetLost, elapsedSince; cbv zeta; rewrite Ht.
  destruct (negb (enemyDetected (sense i s))
            || (distanceFront (sense i s) >? ENEMY_LOST));
    destruct (ulong (ulong (millis i) - stateStartTime s) >? 1000);
    destruct (distanceFront (sense i s) <=? ENEMY_CLOSE);
    destruct (distanceFront (sense i s) >? ENEMY_MEDIUM);
    cbn; rewrite ?Hc, ?Hs, ?Ht; repeat split.
Qed.

(** An attack begun at 0 ms on a target at 100 cm, which counts as lost:
    still arcing at 1000 ms, given up at 1001 ms. *)
Lemma attack_rule_witness :
  (currentState (tick (enter power_on STATE_ATTACK 0) (calm 1000 100 0 0))
   = STATE_ATTACK /\
   stateStartTime (tick (enter power_on STATE_ATTACK 0) (calm 1000 100 0 0))
   = 0 /\
   snd (loop (calm 1000 100 0 0) (enter power_on STATE_ATTACK 0))
   = setMotors 153 230) /\
  (currentState (tick (enter power_on STATE_ATTACK 0) (calm 1001 100 0 0))
   = STATE_SEARCH /\
   stateStartTime (tick (enter power_on STATE_ATTACK 0) (calm 1001 100 0 0))
   = 1001 /\
   snd (loop (calm 1001 100 0 0) (enter power_on STATE_ATTACK 0)) = []).
Proof.
  split.
  - apply (attack_rule (calm 1000 100 0 0) (enter power_on STATE_ATTACK 0));
      reflexivity.
  - apply (attack_rule (calm 1001 100 0 0) (enter power_on STATE_ATTACK 0));
      reflexivity.
Defined.

(** X16. The push is entered only at close range.  If an iteration that
    does not start in [STATE_PUSH] ends in it, then it started in
    [STATE_ATTACK], no border flag was set on it, and the stored front
    distance at its end is at most [ENEMY_CLOSE] = 30 cm. *)
Theorem push_entered_only_close (i : Inputs) (s : Robot) :
  currentState s <> STATE_PUSH ->
  currentState (tick s i) = STATE_PUSH ->
  currentState s = STATE_ATTACK /\
  noBorder i = true /\
  distanceFront (tick s i) <= ENEMY_CLOSE.
Proof.
  intros Hne Hp.
  destruct (sense_state_cases i s) as [Hb | (Hn & Hc & _)].
  - exfalso.
    assert (E : currentState (tick s i) = STATE_BORDER_ESCAPE).
    { unfold tick, loop, dispatch; rewrite Hb.
      apply escape_keeps_state; [exact Hb | apply sense_flags_consistent]. }
    rewrite E in Hp; discriminate Hp.
  - destruct (dispatch_frame i (ulong (millis i)) (sense i s)) as (Hd & _).
    unfold tick, loop in *; rewrite Hd; revert Hp.
    unfold dispatch; rewrite Hc.
    destruct (currentState s) eqn:Es.
    + cbn; rewrite Hc; intros Hp; discriminate Hp.
    + unfold executeOpeningMove; cbv zeta; split_ifs; cbn; rewrite ?Hc;
        intros Hp; discriminate Hp.
    + unfold executeSearch; split_ifs; cbn; rewrite ?Hc;
        intros Hp; discriminate Hp.
    + unfold executeAttack; cbv zeta.
      destruct (distanceFront (sense i s) <=? ENEMY_CLOSE) eqn:Q.
      * intros _; repeat split; [exact Hn | lia].
      * split_ifs; cbn; rewrite ?Hc; intros Hp; discriminate Hp.
    + now contradict Hne.
    + intros Hp; exfalso.
      assert (E : currentState
                    (fst (executeBorderEscape i (ulong (millis i))
                            (sense i s))) = STATE_BORDER_ESCAPE)
        by (apply escape_keeps_state;
            [exact Hc | apply sense_flags_consistent]).
      rewrite E in Hp; discriminate Hp.
Qed.

(** An attack on a target at 25 cm. *)
Lemma push_entered_only_close_witness :
  currentState (enter power_on STATE_ATTACK 0) = STATE_ATTACK /\
  noBorder (calm 400 25 0 0) = true /\
  distanceFront (tick (enter power_on STATE_ATTACK 0) (calm 400 25 0 0))
  <= ENEMY_CLOSE.
Proof.
  apply (push_entered_only_close (calm 400 25 0 0)
           (enter power_on STATE_ATTACK 0)).
  - discriminate.
  - reflexivity.
Defined.
